(** * motop: a "top" clone for MongoDB

    A shallow embedding of [motop.py] and the properties of its rate
    rendering, snapshot counters, ranked tables and operation listing.

    Python integers are unbounded and are modelled by [Z]; text is
    [string]; [None] is [option]'s [None]; a raised exception is the
    [Raise] branch of [result].  Mutable objects are threaded explicitly. *)

From Stdlib Require Import Ascii.
From stdpp Require Import base numbers list strings gmap pretty sorting.

Open Scope Z_scope.

(** ** Python preliminaries *)

(** The exceptions the modelled code can raise. *)
Inductive exception :=
  | AssertionError
  | IndexError
  | AttributeError
  | OverflowError
  | ConnectionFailure (reason : string).

Inductive result (A : Type) :=
  | Ok (a : A)
  | Raise (e : exception).
Arguments Ok {A} a.
Arguments Raise {A} e.

(** The interpreter running the script: the file is written for both
    ([__builtin__] / [ConfigParser] fall back to their Python 3 names), and
    the two differ on [/] and on [round]. *)
Inductive python := Python2 | Python3.

(** Code that mutates a state [S] and may raise: the state reached is
    kept when an exception is raised, as in Python. *)
Definition action (S A : Type) : Type := S → S * result A.

Definition raise {S A : Type} (e : exception) : action S A :=
  λ s, (s, Raise e).

Definition lift_result {S A : Type} (r : result A) : action S A :=
  λ s, (s, r).

Global Instance action_ret {S : Type} : MRet (action S) :=
  λ A a s, (s, Ok a).

Global Instance action_bind {S : Type} : MBind (action S) :=
  λ A B f m s,
    match m s with
    | (s', Ok a) => f a s'
    | (s', Raise e) => (s', Raise e)
    end.

(** [for x in l: body (x)] *)
Fixpoint for_each {S A : Type} (l : list A) (body : A → action S ())
  : action S () :=
  match l with
  | [] => mret ()
  | x :: l' => body x ≫= λ _, for_each l' body
  end.

(** [enumerate (l)] *)
Definition enumerate {A : Type} (l : list A) : list (nat * A) :=
  imap (λ index x, (index, x)) l.

Module Py.

(** [str (n)] for an integer. *)
Definition str (n : Z) : string := pretty n.

(** [str (d)] for a value that is an integer or [None]. *)
Definition str_opt (d : option Z) : string :=
  match d with
  | Some n => str n
  | None => "None"
  end.

(** [s.ljust (width)]: pad with spaces on the right up to [width]. *)
Fixpoint spaces (n : nat) : string :=
  match n with
  | O => ""
  | S n' => String " "%char (spaces n')
  end.

Definition ljust (s : string) (width : nat) : string :=
  s +:+ spaces (width - String.length s)%nat.

(** [s [:n]] on a string, [n] non-negative. *)
Fixpoint prefix (n : nat) (s : string) : string :=
  match n, s with
  | S n', String c s' => String c (prefix n' s')
  | _, _ => ""
  end.

(** [l [:stop]] on a list: a negative [stop] counts from the end. *)
Definition slice_to {A : Type} (l : list A) (stop : Z) : list A :=
  if 0 <=? stop then take (Z.to_nat stop) l
  else take (length l - Z.to_nat (- stop))%nat l.

(** Truth value of an integer-or-[None]: [None] and [0] are false. *)
Definition truthy (v : option Z) : bool :=
  match v with
  | Some n => negb (n =? 0)
  | None => false
  end.

(** *** Stable sorting

    [sorted (l, key = f, reverse = r)] compares keys with [<] only and is
    stable; with [reverse] it reverses the list, sorts, and reverses the
    result, so that equal keys still keep their submitted order.  Any
    stable sort computes the same list; insertion is the simplest one. *)
Section Sorted.
Context {A K : Type} (lt : K → K → bool) (key : A → K).

Fixpoint insert_by (x : A) (l : list A) : list A :=
  match l with
  | [] => [x]
  | y :: l' =>
      if lt (key y) (key x) then y :: insert_by x l' else x :: y :: l'
  end.

Definition stable_sort (l : list A) : list A := foldr insert_by [] l.

Definition sorted (l : list A) (reverse : bool) : list A :=
  if reverse then List.rev (stable_sort (List.rev l)) else stable_sort l.
End Sorted.

(** *** Division and rounding

    Python 3: [n / d] on integers is true division, the binary64 number
    nearest to the exact quotient (ties to even, [OverflowError] beyond
    the largest double), and [round] takes a float to the nearest integer,
    ties to even.  Python 2: [n / d] is floor division, and [round] first
    converts its integer argument to a float.

    A finite non-negative double is kept as [(m, e)], standing for
    [m * 2^e] with [m < 2^53] (or [m = 2^53], the same number as
    [(2^52, e + 1)]). *)

(** Nearest integer to [n / d], ties to even ([0 < d]). *)
Definition round_half_even (n d : Z) : Z :=
  let q := n / d in
  match 2 * (n mod d) ?= d with
  | Lt => q
  | Gt => q + 1
  | Eq => if Z.even q then q else q + 1
  end.

(** [n * 2^(-e) / d] as a fraction of integers. *)
Definition scaled (n d e : Z) : Z * Z :=
  if 0 <=? e then (n, d * 2 ^ e) else (n * 2 ^ (- e), d).

(** The exponent that leaves 53 significant bits in [n / (d * 2^e)]. *)
Definition exponent (n d : Z) : Z :=
  let e0 := Z.log2 n - Z.log2 d - 52 in
  let '(a, b) := scaled n d e0 in
  if a / b <? 2 ^ 52 then e0 - 1 else e0.

(** The double nearest to [n / d], for [0 < d <= n]. *)
Definition to_double (n d : Z) : result (Z * Z) :=
  let e := exponent n d in
  let '(a, b) := scaled n d e in
  let m := round_half_even a b in
  if (0 <=? e) && (2 ^ 1024 <=? m * 2 ^ e) then Raise OverflowError
  else Ok (m, e).

(** [int (round (x))] for a non-negative double [x]. *)
Definition round_double (x : Z * Z) : Z :=
  let '(m, e) := x in
  if 0 <=? e then m * 2 ^ e else round_half_even m (2 ^ (- e)).

(** [int (round (n / d))] for integers [0 < d <= n]. *)
Definition div_round (py : python) (n d : Z) : result Z :=
  match py with
  | Python3 =>
      match to_double n d with
      | Ok x => Ok (round_double x)
      | Raise e => Raise e
      end
  | Python2 =>
      match to_double (n / d) 1 with
      | Ok x => Ok (round_double x)
      | Raise e => Raise e
      end
  end.

End Py.

(** ** Value: an integer printed with a magnitude suffix *)

Module Value.

Definition with_suffix (py : python) (n d : Z) (suffix : string)
  : result string :=
  match Py.div_round py n d with
  | Ok q => Ok (Py.str q +:+ suffix)
  | Raise e => Raise e
  end.

(** [Value.__str__] *)
Definition str (py : python) (self : Z) : result string :=
  if 10 ^ 12 <? self then with_suffix py self (10 ^ 12) "T"
  else if 10 ^ 9 <? self then with_suffix py self (10 ^ 9) "G"
  else if 10 ^ 6 <? self then with_suffix py self (10 ^ 6) "M"
  else if 10 ^ 3 <? self then with_suffix py self (10 ^ 3) "K"
  else Ok (Py.str self).

End Value.

(** ** Printable: what a table row must provide

    The objects handed to a table have the two methods of [Printable]:
    [line] renders the cells and may touch the objects it reads ([Σ], for
    [Server.line] the servers' counters and the remote replies);
    [sortOrder] gives the key, compared by [key_lt] (Python's [<]).
    [isinstance_Printable] tells whether the class of the object derives
    from [Printable], which is all that [reset] asserts. *)
Class Printable (P Σ K : Type) := {
  isinstance_Printable : P → bool;
  line : P → action Σ (list string);
  sortOrder : P → K;
  key_lt : K → K → bool
}.

(** ** ListPrinter: a sorted, truncated, column-aligned table *)

Module ListPrinter.

Record t (P : Type) := Make {
  columnHeaders : list string;
  columnWidths : list nat;
  maxLine : option Z;
  descendingOrder : bool;
  (** [__printables] does not exist before the first [reset]. *)
  printables : option (list P)
}.
Arguments Make {P}.
Arguments columnHeaders {P}.
Arguments columnWidths {P}.
Arguments maxLine {P}.
Arguments descendingOrder {P}.
Arguments printables {P}.

(** What the methods run on: the table, the objects the rows read, and
    the terminal output so far. *)
Record state (P Σ : Type) := State {
  table : t P;
  heap : Σ;
  stdout : string
}.
Arguments State {P Σ}.
Arguments table {P Σ}.
Arguments heap {P Σ}.
Arguments stdout {P Σ}.

Definition newline : string := String "010"%char EmptyString.

Section Methods.
Context {P Σ K : Type} {printable : Printable P Σ K}.

(** [ListPrinter.__init__] *)
Definition init (columnHeaders : list string) (descendingOrder : bool)
    (maxLine : option Z) : t P :=
  Make columnHeaders
       (map (λ columnHeader, String.length columnHeader + 2)%nat
            columnHeaders)
       maxLine descendingOrder None.

(** The assignments of [ListPrinter.reset]: what the table is once the
    submitted objects are sorted and cut. *)
Definition kept (self : t P) (submitted : list P) : list P :=
  let ranked :=
    Py.sorted key_lt sortOrder submitted (descendingOrder self) in
  if Py.truthy (maxLine self)
  then Py.slice_to ranked (default 0 (maxLine self))
  else ranked.

Definition reset_table (self : t P) (submitted : list P) : t P :=
  Make (columnHeaders self) (columnWidths self) (maxLine self)
       (descendingOrder self) (Some (kept self submitted)).

Definition assign_printables (submitted : list P)
  : action (state P Σ) () :=
  λ st, (State (reset_table (table st) submitted) (heap st) (stdout st),
         Ok ()).

(** [assert isinstance (printable, Printable)] *)
Definition assert_Printable (printable : P) : action (state P Σ) () :=
  if isinstance_Printable printable then mret () else raise AssertionError.

Definition print (text : string) : action (state P Σ) () :=
  λ st, (State (table st) (heap st) (stdout st +:+ text), Ok ()).

(** [self.__columnWidths [index]] *)
Definition get_width (index : nat) : action (state P Σ) nat :=
  λ st, match columnWidths (table st) !! index with
        | Some width => (st, Ok width)
        | None => (st, Raise IndexError)
        end.

(** [self.__columnWidths [index] = width] *)
Definition set_width (index width : nat) : action (state P Σ) () :=
  λ st,
    let self := table st in
    if (index <? length (columnWidths self))%nat
    then (State (Make (columnHeaders self)
                      (<[index := width]> (columnWidths self))
                      (maxLine self) (descendingOrder self)
                      (printables self))
                (heap st) (stdout st), Ok ())
    else (st, Raise IndexError).

(** [self.__printables] *)
Definition get_printables : action (state P Σ) (list P) :=
  λ st, match printables (table st) with
        | Some rows => (st, Ok rows)
        | None => (st, Raise AttributeError)
        end.

(** [ListPrinter.reset]: the new generation is in place before the
    assertions run. *)
Definition reset (submitted : list P) : action (state P Σ) () :=
  assign_printables submitted ≫= λ _,
  rows ← get_printables;
  for_each rows assert_Printable.

Definition get_headers : action (state P Σ) (list string) :=
  λ st, (st, Ok (columnHeaders (table st))).

(** [printable.line ()] *)
Definition call_line (printable : P) : action (state P Σ) (list string) :=
  λ st, let '(h, r) := line printable (heap st) in
        (State (table st) h (stdout st), r).

(** The body of the inner loop of [printLines]. *)
Definition print_cell (index : nat) (cell : string)
  : action (state P Σ) () :=
  width ← get_width index;
  (if (width <? String.length cell + 2)%nat
   then set_width index (String.length cell + 2)%nat
   else mret ()) ≫= λ _,
  width' ← get_width index;
  print (Py.ljust cell width').

Definition print_header (index : nat) (columnHeader : string)
  : action (state P Σ) () :=
  width ← get_width index;
  print (Py.ljust columnHeader width).

Definition print_row (printable : P) : action (state P Σ) () :=
  cells ← call_line printable;
  for_each (enumerate cells) (λ ic, print_cell ic.1 ic.2) ≫= λ _,
  print newline.

(** [ListPrinter.printLines] *)
Definition printLines : action (state P Σ) () :=
  headers ← get_headers;
  for_each (enumerate headers) (λ ih, print_header ih.1 ih.2) ≫= λ _,
  print newline ≫= λ _,
  rows ← get_printables;
  for_each rows print_row.

(** The [while] loop of [getLine], from position [index] on, [rest]
    being [line [index:]]: [Ok different]. *)
Fixpoint compare_from (printableLine rest : list string) (index : nat)
  : result bool :=
  match rest with
  | [] => Ok false
  | cell :: rest' =>
      match printableLine !! index with
      | None => Raise IndexError
      | Some printed =>
          if String.eqb printed cell
          then compare_from printableLine rest' (S index)
          else Ok true
      end
  end.

Fixpoint scan (rows : list P) (line : list string)
  : action (state P Σ) (option P) :=
  match rows with
  | [] => mret None
  | printable :: rows' =>
      printableLine ← call_line printable;
      different ← lift_result (compare_from printableLine line 0);
      if different : bool then scan rows' line else mret (Some printable)
  end.

(** [ListPrinter.getLine]: the matching row, or [None]. *)
Definition getLine (line : list string) : action (state P Σ) (option P) :=
  rows ← get_printables;
  scan rows line.

End Methods.

End ListPrinter.

(** ** The monitored servers, as pymongo shows them *)

(** A query document, kept as the text [json.dumps] gives for it. *)
Definition document := string.

(** An entry of [current_op () ['inprog']]: [op], [opid], [ns] and [query]
    are read unconditionally by the code, [secs_running] only after an
    [in] test. *)
Record inprog := InProg {
  op : string;
  opid : Z;
  ns : string;
  query : document;
  secs_running : option Z
}.

(** The fields of [command ('serverStatus')] that [Server.line] reads. *)
Record serverStatus := ServerStatus {
  connections_current : Z;
  connections_available : Z;
  mem_resident : Z;
  mem_mapped : Z;
  opcounters : gmap string Z;
  activeClients_total : Z;
  currentQueue_total : Z;
  backgroundFlushing_flushes : Z
}.

(** The remote side, by address: whether [Connection (address)] succeeds
    and what the two admin commands answer. *)
Record remote := Remote {
  connect : string → result ();
  current_op : string → result (list inprog);
  command_serverStatus : string → result serverStatus
}.

(** ** Server *)

Module Server.

(** [__connection] is represented by the address it was opened on. *)
Record t := Make {
  name : string;
  address : string;
  operationCount : Z;
  flushCount : Z
}.

(** The network as [__init__] sees it: the remote side and the
    connections opened so far. *)
Record network := Network {
  peer : remote;
  opened : list string
}.

(** [Connection (address)] *)
Definition Connection (address : string) : action network () :=
  λ net, match connect (peer net) address with
         | Ok _ => (Network (peer net) (opened net ++ [address]), Ok ())
         | Raise e => (net, Raise e)
         end.

(** [Server.__init__] (with pymongo 2 installed, so that the import
    succeeds, and assertions enabled). *)
Definition init (name address : string) : action network t :=
  if (String.length name <? 14)%nat
  then Connection address ≫= λ _, mret (Make name address 0 0)
  else raise AssertionError.

Definition sortOrder (self : t) : string := name self.

(** [sum ([value for key, value in operationCounts.items ()])] *)
Definition total (operationCounts : gmap string Z) : Z :=
  map_fold (λ _ value acc, acc + value) 0 operationCounts.

(** [Server.__getOperationCountChange] *)
Definition getOperationCountChange (operationCounts : gmap string Z)
  : action t Z :=
  λ self,
    let oldOperationCount := operationCount self in
    let self' := Make (name self) (address self) (total operationCounts)
                      (flushCount self) in
    (self', Ok (operationCount self' - oldOperationCount)).

(** [Server.__getFlushCountChange] *)
Definition getFlushCountChange (flushCount' : Z) : action t Z :=
  λ self,
    let oldFlushCount := flushCount self in
    let self' := Make (name self) (address self) (operationCount self)
                      flushCount' in
    (self', Ok (flushCount self' - oldFlushCount)).

(** [str (Value (n))] *)
Definition show (py : python) (n : Z) : action t string :=
  lift_result (Value.str py n).

(** [Server.line], given the reply to [serverStatus]. *)
Definition line_of (py : python) (status : serverStatus)
  : action t (list string) :=
  let currentConnection := connections_current status in
  let totalConnection :=
    connections_available status + connections_current status in
  let residentMem := mem_resident status in
  let mappedMem := mem_mapped status in
  self ← (λ self, (self, Ok self));
  operations ← getOperationCountChange (opcounters status);
  qps ← show py operations;
  clients ← show py (activeClients_total status);
  queue ← show py (currentQueue_total status);
  flushed ← getFlushCountChange (backgroundFlushing_flushes status);
  flushes ← show py flushed;
  current ← show py currentConnection;
  available ← show py totalConnection;
  resident ← show py residentMem;
  mapped ← show py mappedMem;
  mret [name self; qps; clients; queue; flushes;
        current +:+ " / " +:+ available;
        resident +:+ " / " +:+ mapped].

(** [Server.line] *)
Definition line (py : python) (deployment : remote)
  : action t (list string) :=
  λ self,
    match command_serverStatus deployment (address self) with
    | Ok status => line_of py status self
    | Raise e => (self, Raise e)
    end.

End Server.

(** ** Operation and Query *)

Module Operation.

Record t := Make {
  server : Server.t;
  opid : Z
}.

Definition sortOrder (self : t) : Z := -1 * opid self.

Definition line (self : t) : list string :=
  [Server.name (server self); Py.str (opid self)].

End Operation.

Module Query.

(** A [Query] is an [Operation] with three more attributes. *)
Record t := Make {
  base : Operation.t;
  namespace : string;
  body : document;
  duration : option Z
}.

(** [Query.__init__] with and without the [duration] argument. *)
Definition init (server : Server.t) (opid : Z) (namespace : string)
    (body : document) (duration : option Z) : t :=
  Make (Operation.Make server opid) namespace body duration.

(** [self.__duration if self.__duration else 0] *)
Definition sortOrder (self : t) : Z :=
  if Py.truthy (duration self) then default 0 (duration self) else 0.

Definition line (self : t) : list string :=
  Operation.line (base self)
    ++ [namespace self; Py.str_opt (duration self);
        Py.prefix 80 (body self)].

End Query.

(** The objects [currentOperations] yields: instances of [Operation]
    proper or of its subclass [Query]. *)
Inductive operation :=
  | Generic (o : Operation.t)
  | Queried (q : Query.t).

(** Method dispatch on the class of the object. *)
Definition operation_sortOrder (o : operation) : Z :=
  match o with
  | Generic o => Operation.sortOrder o
  | Queried q => Query.sortOrder q
  end.

Definition operation_line (o : operation) : list string :=
  match o with
  | Generic o => Operation.line o
  | Queried q => Query.line q
  end.

Global Instance operation_printable {Σ : Type} : Printable operation Σ Z := {
  isinstance_Printable _ := true;
  line o := mret (operation_line o);
  sortOrder := operation_sortOrder;
  key_lt := Z.ltb
}.

(** Rows of the servers table are references to the [Server] objects of
    the configured list, here the position in that list together with the
    name, which never changes; [line] updates the object it is called on. *)
Record server_ref := ServerRef {
  position : nat;
  shown : string
}.

Record fleet := Fleet {
  servers : list Server.t;
  deployment : remote
}.

Definition server_line (py : python) (ref : server_ref)
  : action fleet (list string) :=
  λ σ, match servers σ !! position ref with
       | Some self =>
           let '(self', r) := Server.line py (deployment σ) self in
           (Fleet (<[position ref := self']> (servers σ)) (deployment σ), r)
       | None => (σ, Raise AttributeError)
       end.

Definition server_printable (py : python)
  : Printable server_ref fleet string := {|
  isinstance_Printable _ := true;
  line := server_line py;
  sortOrder := shown;
  key_lt := String.ltb
|}.

(** [Query.listPrinter] and [Server.listPrinter] as first created. *)
Definition Query_listPrinter : ListPrinter.t operation :=
  ListPrinter.init ["Server"; "OpId"; "Namespace"; "Sec"; "Query"]
                   true (Some 30).

Definition Server_listPrinter : ListPrinter.t server_ref :=
  ListPrinter.init
    ["Server"; "QPS"; "Clients"; "Queue"; "Flushes"; "Connections"; "Memory"]
    false None.

(** ** Listing the operations in progress *)

(** The body of the loop of [Server.currentOperations]. *)
Definition classify (self : Server.t) (entry : inprog) : operation :=
  if String.eqb (op entry) "query" then
    match secs_running entry with
    | Some seconds =>
        Queried (Query.init self (opid entry) (ns entry) (query entry)
                            (Some seconds))
    | None =>
        Queried (Query.init self (opid entry) (ns entry) (query entry) None)
    end
  else Generic (Operation.Make self (opid entry)).

(** [Server.currentOperations], consumed to the end. *)
Definition currentOperations (deployment : remote) (self : Server.t)
  : result (list operation) :=
  match current_op deployment (Server.address self) with
  | Ok entries => Ok (map (classify self) entries)
  | Raise e => Raise e
  end.

(** [[operation for server in servers
       for operation in server.currentOperations ()]] *)
Fixpoint all_operations (deployment : remote) (servers : list Server.t)
  : result (list operation) :=
  match servers with
  | [] => Ok []
  | server :: servers' =>
      match currentOperations deployment server with
      | Raise e => Raise e
      | Ok operations =>
          match all_operations deployment servers' with
          | Raise e => Raise e
          | Ok operations' => Ok (operations ++ operations')
          end
      end
  end.

(** ** One pass of the main loop

    The three statements executed when no button is pending: both tables
    are reset, then [console.refresh] clears the screen and prints them. *)

Record console := Console {
  serverPrinter : ListPrinter.t server_ref;
  queryPrinter : ListPrinter.t operation;
  monitored : fleet;
  (** what the terminal shows *)
  screen : string
}.

(** Run a method of [Server.listPrinter]. *)
Definition on_servers {A : Type}
    (m : action (ListPrinter.state server_ref fleet) A) : action console A :=
  λ c, let '(st, r) :=
         m (ListPrinter.State (serverPrinter c) (monitored c) (screen c)) in
       (Console (ListPrinter.table st) (queryPrinter c)
                (ListPrinter.heap st) (ListPrinter.stdout st), r).

(** Run a method of [Query.listPrinter]. *)
Definition on_queries {A : Type}
    (m : action (ListPrinter.state operation fleet) A) : action console A :=
  λ c, let '(st, r) :=
         m (ListPrinter.State (queryPrinter c) (monitored c) (screen c)) in
       (Console (serverPrinter c) (ListPrinter.table st)
                (ListPrinter.heap st) (ListPrinter.stdout st), r).

(** [os.system ('clear')] *)
Definition clear : action console () :=
  λ c, (Console (serverPrinter c) (queryPrinter c) (monitored c) "", Ok ()).

Definition print_blank : action console () :=
  λ c, (Console (serverPrinter c) (queryPrinter c) (monitored c)
                (screen c +:+ ListPrinter.newline), Ok ()).

(** [Console.refresh] *)
Definition refresh (py : python) : action console () :=
  clear ≫= λ _,
  on_servers (ListPrinter.printLines (printable := server_printable py)) ≫= λ _,
  print_blank ≫= λ _,
  on_queries ListPrinter.printLines ≫= λ _,
  print_blank.

Definition server_refs (l : list Server.t) : list server_ref :=
  imap (λ index server, ServerRef index (Server.name server)) l.

(** Lines 284 to 286 of the main loop. *)
Definition tick (py : python) : action console () :=
  fleet ← (λ c, (c, Ok (monitored c)));
  on_servers (ListPrinter.reset (printable := server_printable py)
                                 (server_refs (servers fleet))) ≫= λ _,
  operations ← lift_result (all_operations (deployment fleet) (servers fleet));
  on_queries (ListPrinter.reset operations) ≫= λ _,
  refresh py.

(** ** Vocabulary of the statements *)

(** What Python's [<] must satisfy on the keys of one table for [sorted]
    to rank them: it is a strict weak order. *)
Class KeyOrder {K : Type} (lt : K → K → bool) : Prop := {
  lt_asym : ∀ a b, lt a b = true → lt b a = false;
  lt_cotrans : ∀ a b c, lt b a = false → lt c b = false → lt c a = false
}.

(** Ascending and descending order of the keys: [y] is not below [x],
    respectively not above it. *)
Definition ascending {A K : Type} (lt : K → K → bool) (key : A → K)
    (x y : A) : Prop :=
  lt (key y) (key x) = false.

Definition descending {A K : Type} (lt : K → K → bool) (key : A → K)
    (x y : A) : Prop :=
  lt (key x) (key y) = false.

(** [x] may stand before [y] in a table of the given direction: [y] is not
    greater (descending), or not smaller (ascending), than [x]. *)
Definition ranks_before {P Σ K : Type} {printable : Printable P Σ K}
    (descendingOrder : bool) (x y : P) : Prop :=
  if descendingOrder then key_lt (sortOrder x) (sortOrder y) = false
  else key_lt (sortOrder y) (sortOrder x) = false.

(** The method calls a table receives during its life. *)
Inductive call (P : Type) :=
  | Reset (submitted : list P)
  | PrintLines
  | GetLine (line : list string).
Arguments Reset {P} submitted.
Arguments PrintLines {P}.
Arguments GetLine {P} line.

Definition perform {P Σ K : Type} {printable : Printable P Σ K}
    (c : call P) : action (ListPrinter.state P Σ) () :=
  match c with
  | Reset submitted => ListPrinter.reset submitted
  | PrintLines => ListPrinter.printLines
  | GetLine line => ListPrinter.getLine line ≫= λ _, mret ()
  end.

(** A life of the table: the calls in order, each one run from the state
    its predecessor left, whether it returned or raised. *)
Fixpoint lifetime {P Σ K : Type} {printable : Printable P Σ K}
    (calls : list (call P)) (st : ListPrinter.state P Σ)
  : ListPrinter.state P Σ :=
  match calls with
  | [] => st
  | c :: calls' => lifetime calls' (perform c st).1
  end.

(** An action never leaves the relation [R] between the state it starts
    from and the state it ends in, whether it returns or raises. *)
Definition preserves {S A : Type} (R : relation S) (m : action S A) : Prop :=
  ∀ s, R s (m s).1.

(** No column of the table is narrower in [st'] than in [st]. *)
Definition widths_grow {P Σ : Type} (st st' : ListPrinter.state P Σ) : Prop :=
  Forall2 le (ListPrinter.columnWidths (ListPrinter.table st))
             (ListPrinter.columnWidths (ListPrinter.table st')).

(** Sample data for the examples. *)
Definition srv1 : Server.t := Server.Make "srv1" "db1.example:27017" 0 0.
Definition srv2 : Server.t := Server.Make "srv2" "db2.example:27017" 0 0.

Definition op101 : operation :=
  Queried (Query.init srv1 101 "shop.orders" "{}" (Some 12)).
Definition op202 : operation :=
  Queried (Query.init srv2 202 "shop.users" "{}" None).
Definition op7 : operation := Generic (Operation.Make srv1 7).

(** The operations table after a [reset] with two queries, and with one
    generic operation. *)
Definition operations_shown : ListPrinter.state operation () :=
  (ListPrinter.reset [op101; op202]
     (ListPrinter.State Query_listPrinter () "")).1.

Definition generic_shown : ListPrinter.state operation () :=
  (ListPrinter.reset [op7] (ListPrinter.State Query_listPrinter () "")).1.

(** Successive samples of one counter of a server: the change reported
    for each input in turn. *)
Fixpoint samples {A : Type} (change : A → action Server.t Z)
    (inputs : list A) : action Server.t (list Z) :=
  match inputs with
  | [] => mret []
  | input :: inputs' =>
      delta ← change input;
      deltas ← samples change inputs';
      mret (delta :: deltas)
  end.

(** Each value minus the one before it, the first one minus [previous]. *)
Definition changes (previous : Z) (values : list Z) : list Z :=
  zip_with Z.sub values (previous :: values).

(** A deployment where [current_op] fails on the first server and the
    second one runs a single query. *)
Definition db1_down : remote :=
  Remote (λ _, Ok ())
         (λ address,
            if String.eqb address "db1.example:27017"
            then Raise (ConnectionFailure "db1.example:27017")
            else Ok [InProg "query" 202 "shop.users" "{}" None])
         (λ _, Ok (ServerStatus 5 95 100 200 {[ "query" := 47 ]} 1 0 3)).

Definition console0 : console :=
  Console Server_listPrinter Query_listPrinter
          (Fleet [srv1; srv2] db1_down) "".

(** ** Vocabulary of the further properties *)

(** Keys that [<] does not tell apart. *)
Definition same_key {K : Type} (lt : K → K → bool) (a b : K) : bool :=
  negb (lt a b) && negb (lt b a).

(** The rows of a list whose key [<] does not tell apart from [k], in the
    order of the list. *)
Definition tied {P Σ K : Type} {printable : Printable P Σ K}
    (k : K) (rows : list P) : list P :=
  List.filter (λ row, same_key key_lt (sortOrder row) k) rows.

(** What [__init__] fixed: the headers, the maximum, the direction, and
    with them the number of columns. *)
Definition same_settings {P Σ : Type} (st st' : ListPrinter.state P Σ)
  : Prop :=
  ListPrinter.columnHeaders (ListPrinter.table st')
    = ListPrinter.columnHeaders (ListPrinter.table st)
  ∧ ListPrinter.maxLine (ListPrinter.table st')
    = ListPrinter.maxLine (ListPrinter.table st)
  ∧ ListPrinter.descendingOrder (ListPrinter.table st')
    = ListPrinter.descendingOrder (ListPrinter.table st)
  ∧ length (ListPrinter.columnWidths (ListPrinter.table st'))
    = length (ListPrinter.columnWidths (ListPrinter.table st)).

(** Text is only ever added at the end of the output. *)
Definition output_extends {P Σ : Type} (st st' : ListPrinter.state P Σ)
  : Prop :=
  ∃ more, ListPrinter.stdout st' = ListPrinter.stdout st +:+ more.

(** The rows of the table are the same. *)
Definition same_generation {P Σ : Type} (st st' : ListPrinter.state P Σ)
  : Prop :=
  ListPrinter.printables (ListPrinter.table st')
  = ListPrinter.printables (ListPrinter.table st).

(** Neither the table nor the output differ. *)
Definition only_objects_touched {P Σ : Type}
    (st st' : ListPrinter.state P Σ) : Prop :=
  ListPrinter.table st' = ListPrinter.table st
  ∧ ListPrinter.stdout st' = ListPrinter.stdout st.

(** Neither the objects nor the output differ. *)
Definition only_table_touched {P Σ : Type}
    (st st' : ListPrinter.state P Σ) : Prop :=
  ListPrinter.heap st' = ListPrinter.heap st
  ∧ ListPrinter.stdout st' = ListPrinter.stdout st.

(** The header row of a table that has not grown yet: every header and
    two spaces. *)
Definition fresh_header_row (columnHeaders : list string) : string :=
  foldr (λ columnHeader row, columnHeader +:+ "  " +:+ row) ""
        columnHeaders.

(** *** The layout [printLines] produces, as functions of the widths *)

(** The width a column has once [cell] was printed in it. *)
Definition cell_width (widths : list nat) (index : nat) (cell : string)
  : nat :=
  (default 0%nat (widths !! index) `max` (String.length cell + 2))%nat.

(** The widths after a row of cells was printed from column [index] on. *)
Fixpoint grow_row (widths : list nat) (index : nat) (cells : list string)
  : list nat :=
  match cells with
  | [] => widths
  | cell :: cells' =>
      grow_row (<[index := cell_width widths index cell]> widths)
               (S index) cells'
  end.

(** The text of that row: each cell padded to the width of its column. *)
Fixpoint row_text (widths : list nat) (index : nat) (cells : list string)
  : string :=
  match cells with
  | [] => ""
  | cell :: cells' =>
      Py.ljust cell (cell_width widths index cell)
        +:+ row_text widths (S index) cells'
  end.

(** The text of the header row. *)
Fixpoint header_text (widths : list nat) (index : nat)
    (columnHeaders : list string) : string :=
  match columnHeaders with
  | [] => ""
  | columnHeader :: columnHeaders' =>
      Py.ljust columnHeader (default 0%nat (widths !! index))
        +:+ header_text widths (S index) columnHeaders'
  end.

(** The widths after all the rows, and the text of all the rows. *)
Fixpoint grow_rows (widths : list nat) (rows : list (list string))
  : list nat :=
  match rows with
  | [] => widths
  | cells :: rows' => grow_rows (grow_row widths 0 cells) rows'
  end.

Fixpoint rows_text (widths : list nat) (rows : list (list string))
  : string :=
  match rows with
  | [] => ""
  | cells :: rows' =>
      row_text widths 0 cells +:+ ListPrinter.newline
        +:+ rows_text (grow_row widths 0 cells) rows'
  end.


(** The state after printing: new widths, more text, the rest as it was. *)
Definition printed {P Σ : Type} (st : ListPrinter.state P Σ)
    (widths : list nat) (text : string) : ListPrinter.state P Σ :=
  ListPrinter.State
    (ListPrinter.Make (ListPrinter.columnHeaders (ListPrinter.table st))
                      widths
                      (ListPrinter.maxLine (ListPrinter.table st))
                      (ListPrinter.descendingOrder (ListPrinter.table st))
                      (ListPrinter.printables (ListPrinter.table st)))
    (ListPrinter.heap st)
    (ListPrinter.stdout st +:+ text).

(** What [printLines] gets to print of the rows of a table with
    [columns] columns: the cells of each row, rendered on the objects as
    the rows before it left them, up to the first row whose [line] raises
    (of which nothing is printed) or which has more cells than there are
    columns (of which the first [columns] cells are printed); with the
    objects as they are left, and how the loop ends. *)
Fixpoint printed_cells {P Σ K : Type} {printable : Printable P Σ K}
    (columns : nat) (rows : list P) (σ : Σ)
  : Σ * list (list string) * result () :=
  match rows with
  | [] => (σ, [], Ok ())
  | row :: rows' =>
      match line row σ with
      | (σ', Raise e) => (σ', [], Raise e)
      | (σ', Ok cells) =>
          if (length cells <=? columns)%nat then
            let '(σ'', cellss, r) := printed_cells columns rows' σ' in
            (σ'', cells :: cellss, r)
          else (σ', [take columns cells], Raise IndexError)
      end
  end.

(** The width of a column once these cells were printed: the largest of
    its width before and the length plus 2 of each cell printed in it. *)
Definition column_width (width index : nat) (cellss : list (list string))
  : nat :=
  foldl (λ w cells, match cells !! index with
                    | Some cell => (w `max` (String.length cell + 2))%nat
                    | None => w
                    end) width cellss.

(** The server and the operation id an operation carries, whatever its
    class. *)
Definition operation_server (o : operation) : Server.t :=
  match o with
  | Generic o => Operation.server o
  | Queried q => Operation.server (Query.base q)
  end.

Definition operation_opid (o : operation) : Z :=
  match o with
  | Generic o => Operation.opid o
  | Queried q => Operation.opid (Query.base q)
  end.

(** The sum of a list of changes. *)
Definition sum_changes (deltas : list Z) : Z := foldr Z.add 0 deltas.

(** The console with [text] on its terminal. *)
Definition with_screen (c : console) (text : string) : console :=
  Console (serverPrinter c) (queryPrinter c) (monitored c) text.

(** * Properties *)

(** ** Rounding a quotient through a double *)

Lemma round_half_even_intro (n d q r : Z) :
  0 < d → n = q * d + r → 0 ≤ r < d →
  Py.round_half_even n d =
    match 2 * r ?= d with
    | Lt => q
    | Gt => q + 1
    | Eq => if Z.even q then q else q + 1
    end.
Proof.
  intros Hd Hn Hr. unfold Py.round_half_even.
  assert (n `div` d = q) as ->.
  { symmetry. apply (Z.div_unique n d q r); [lia|lia]. }
  assert (n `mod` d = r) as ->.
  { symmetry. apply (Z.mod_unique n d q r); [lia|lia]. }
  done.
Qed.

Lemma round_half_even_nearest (n d : Z) :
  0 < d → 2 * Z.abs (Py.round_half_even n d * d - n) ≤ d.
Proof.
  intros Hd. unfold Py.round_half_even.
  pose proof (Z.div_mod n d ltac:(lia)) as Hn.
  pose proof (Z.mod_pos_bound n d Hd) as Hr.
  destruct (Z.compare_spec (2 * (n `mod` d)) d);
    [destruct (Z.even _)|..]; lia.
Qed.

Lemma round_twice (n d P : Z) :
  0 ≤ n → 0 < d < P → Z.even P = true →
  Py.round_half_even (Py.round_half_even (n * P) d) P = Py.round_half_even n d.
Proof.
  intros Hn Hd HP.
  pose proof (Z.div_mod n d ltac:(lia)) as Hqr.
  pose proof (Z.mod_pos_bound n d ltac:(lia)) as Hr.
  set (q := n `div` d) in *. set (r := n `mod` d) in *.
  pose proof (Z.div_mod (r * P) d ltac:(lia)) as Huv.
  pose proof (Z.mod_pos_bound (r * P) d ltac:(lia)) as Hv.
  set (u := (r * P) `div` d) in *. set (v := (r * P) `mod` d) in *.
  assert (0 ≤ q) by (apply Z.div_pos; lia).
  assert (0 ≤ u) by (apply Z.div_pos; nia).
  assert (u < P) by nia.
  rewrite (round_half_even_intro n d q r) by lia.
  rewrite (round_half_even_intro (n * P) d (q * P + u) v) by (lia || nia).
  assert (Z.even (q * P + u) = Z.even u) as ->.
  { rewrite Z.even_add, Z.even_mul, HP, orb_true_r. by destruct (Z.even u). }
  apply Z.even_spec in HP as [h ->].
  destruct (Z.compare_spec (2 * r) d) as [Hc|Hc|Hc].
  - (* tie *)
    assert (h * d = u * d + v) as Hh by lia.
    assert (u = h) as Hu.
    { destruct (Z.lt_trichotomy u h) as [?|[?|?]]; [|done|]; nia. }
    assert (v = 0) as Hv0 by nia.
    rewrite Hu, Hv0.
    assert ((2 * 0 ?= d) = Lt) as -> by (apply Z.compare_lt_iff; lia).
    rewrite (round_half_even_intro _ (2 * h) q h) by lia.
    by rewrite Z.compare_refl.
  - destruct (Z.compare_spec (2 * v) d) as [Hc'|Hc'|Hc'].
    + destruct (Z.even u).
      * rewrite (round_half_even_intro _ (2 * h) q u) by nia.
        assert ((2 * u ?= 2 * h) = Lt) as -> by (apply Z.compare_lt_iff; nia). done.
      * rewrite (round_half_even_intro _ (2 * h) q (u + 1)) by nia.
        assert ((2 * (u + 1) ?= 2 * h) = Lt) as -> by (apply Z.compare_lt_iff; nia). done.
    + rewrite (round_half_even_intro _ (2 * h) q u) by nia.
      assert ((2 * u ?= 2 * h) = Lt) as -> by (apply Z.compare_lt_iff; nia). done.
    + rewrite (round_half_even_intro _ (2 * h) q (u + 1)) by nia.
      assert ((2 * (u + 1) ?= 2 * h) = Lt) as -> by (apply Z.compare_lt_iff; nia). done.
  - assert (2 * h - 1 ≤ 2 * u) by nia.
    destruct (Z.compare_spec (2 * v) d) as [Hc'|Hc'|Hc'].
    + destruct (Z.even u).
      * rewrite (round_half_even_intro _ (2 * h) q u) by nia.
        assert ((2 * u ?= 2 * h) = Gt) as -> by (apply Z.compare_gt_iff; nia). done.
      * destruct (decide (u + 1 = 2 * h)) as [Heq|Hne].
        -- rewrite (round_half_even_intro _ (2 * h) (q + 1) 0) by nia.
           assert ((2 * 0 ?= 2 * h) = Lt) as -> by (apply Z.compare_lt_iff; lia). done.
        -- rewrite (round_half_even_intro _ (2 * h) q (u + 1)) by nia.
           assert ((2 * (u + 1) ?= 2 * h) = Gt) as -> by (apply Z.compare_gt_iff; nia). done.
    + rewrite (round_half_even_intro _ (2 * h) q u) by nia.
      assert ((2 * u ?= 2 * h) = Gt) as -> by (apply Z.compare_gt_iff; nia). done.
    + destruct (decide (u + 1 = 2 * h)) as [Heq|Hne].
      * rewrite (round_half_even_intro _ (2 * h) (q + 1) 0) by nia.
        assert ((2 * 0 ?= 2 * h) = Lt) as -> by (apply Z.compare_lt_iff; lia). done.
      * rewrite (round_half_even_intro _ (2 * h) q (u + 1)) by nia.
        assert ((2 * (u + 1) ?= 2 * h) = Gt) as -> by (apply Z.compare_gt_iff; nia). done.
Qed.

Lemma scaled_negative (n d e : Z) :
  e < 0 → Py.scaled n d e = (n * 2 ^ (- e), d).
Proof.
  intros He. unfold Py.scaled.
  destruct (Z.leb_spec 0 e); [lia|done].
Qed.

(** Below [2^52] the exponent is negative and keeps at least 53 bits. *)
Lemma exponent_small (n d : Z) :
  0 < d ≤ n → n < 2 ^ 52 →
  Py.exponent n d < 0 ∧ 2 ^ 52 * d ≤ n * 2 ^ (- Py.exponent n d).
Proof.
  intros Hd Hn. unfold Py.exponent.
  pose proof (Z.log2_spec n ltac:(lia)) as [Hln _].
  pose proof (Z.log2_spec d ltac:(lia)) as [_ Hld].
  pose proof (Z.log2_nonneg d) as Hld0.
  pose proof (Z.log2_nonneg n) as Hln0.
  assert (Z.log2 n < 52) as Hln52 by (apply Z.log2_lt_pow2; lia).
  assert (Z.log2 d ≤ Z.log2 n) as Hle by (apply Z.log2_le_mono; lia).
  set (ln := Z.log2 n) in *. set (ld := Z.log2 d) in *.
  rewrite scaled_negative by lia.
  destruct (Z.ltb_spec ((n * 2 ^ (- (ln - ld - 52))) `div` d) (2 ^ 52))
    as [Hlt|Hge].
  - split; [lia|].
    replace (- (ln - ld - 52 - 1)) with ((52 + Z.succ ld) - ln) by lia.
    assert (2 ^ (52 + Z.succ ld) = 2 ^ (52 + Z.succ ld - ln) * 2 ^ ln) as Hp.
    { rewrite <- Z.pow_add_r by lia. f_equal. lia. }
    assert (2 ^ (52 + Z.succ ld) = 2 ^ 52 * 2 ^ Z.succ ld) as Hp'.
    { rewrite <- Z.pow_add_r by lia. done. }
    assert (0 < 2 ^ (52 + Z.succ ld - ln)) by (apply Z.pow_pos_nonneg; lia).
    nia.
  - split; [lia|].
    pose proof (Z.mul_div_le (n * 2 ^ (- (ln - ld - 52))) d ltac:(lia)).
    nia.
Qed.

Lemma div_round_small (n d : Z) :
  0 < d ≤ n → n < 2 ^ 52 →
  Py.div_round Python3 n d = Ok (Py.round_half_even n d).
Proof.
  intros Hd Hn. unfold Py.div_round, Py.to_double.
  destruct (exponent_small n d Hd Hn) as [He Hbits].
  set (e := Py.exponent n d) in *.
  rewrite scaled_negative by done.
  destruct (Z.leb_spec 0 e); [lia|]. simpl.
  destruct (Z.leb_spec 0 e); [lia|].
  f_equal. apply round_twice.
  - lia.
  - split; [lia|]. 
    assert (0 < 2 ^ (- e)) by (apply Z.pow_pos_nonneg; lia). nia.
  - replace (- e) with (Z.succ (- e - 1)) by lia.
    rewrite Z.pow_succ_r by lia. by rewrite Z.even_mul.
Qed.

(** ** Value *)

(** C4, as the code has it.  Run by Python 3, a value [0 <= n < 2^52] is
    printed unscaled up to [10^3] and otherwise divided by the largest of
    [10^3], [10^6], [10^9], [10^12] that it strictly exceeds, rounded to
    the nearest integer (ties to even) and given the suffix K, M, G or T.
    So 999 gives "999", 1500 gives "2K", 1234567890 gives "1G", and 999999,
    which exceeds [10^3] but not [10^6], gives "1000K". *)
Theorem Value_str_scaled (n : Z) (Hn : 0 ≤ n < 2 ^ 52) :
  let scaled d suffix :=
    Ok (Py.str (Py.round_half_even n d) +:+ suffix) in
  (n ≤ 10 ^ 3 → Value.str Python3 n = Ok (Py.str n))
  ∧ (10 ^ 3 < n ≤ 10 ^ 6 → Value.str Python3 n = scaled (10 ^ 3) "K")
  ∧ (10 ^ 6 < n ≤ 10 ^ 9 → Value.str Python3 n = scaled (10 ^ 6) "M")
  ∧ (10 ^ 9 < n ≤ 10 ^ 12 → Value.str Python3 n = scaled (10 ^ 9) "G")
  ∧ (10 ^ 12 < n → Value.str Python3 n = scaled (10 ^ 12) "T")
  ∧ (∀ d, 0 < d → 2 * Z.abs (Py.round_half_even n d * d - n) ≤ d)
  ∧ Value.str Python3 999 = Ok "999"
  ∧ Value.str Python3 1500 = Ok "2K"
  ∧ Value.str Python3 999999 = Ok "1000K"
  ∧ Value.str Python3 1234567890 = Ok "1G".
Proof.
  intros scaled.
  assert (∀ d suffix, 0 < d ≤ n →
            Value.with_suffix Python3 n d suffix = scaled d suffix) as Hs.
  { intros d suffix Hd. unfold Value.with_suffix.
    by rewrite div_round_small by lia. }
  assert (∀ a b : Z, (a <? b) = bool_decide (a < b)) as Hltb.
  { intros a b. destruct (Z.ltb_spec a b);
      [by rewrite bool_decide_eq_true_2|by rewrite bool_decide_eq_false_2; [|lia]]. }
  split; [|split; [|split; [|split; [|split; [|split]]]]].
  - intros Hle. unfold Value.str. rewrite !Hltb.
    by rewrite !bool_decide_eq_false_2 by lia.
  - intros [Hlo Hhi]. unfold Value.str. rewrite !Hltb.
    rewrite !(bool_decide_eq_false_2 (_ < n)) by lia.
    rewrite bool_decide_eq_true_2 by lia. apply Hs; lia.
  - intros [Hlo Hhi]. unfold Value.str. rewrite !Hltb.
    rewrite !(bool_decide_eq_false_2 (_ < n)) by lia.
    rewrite bool_decide_eq_true_2 by lia. apply Hs; lia.
  - intros [Hlo Hhi]. unfold Value.str. rewrite !Hltb.
    rewrite !(bool_decide_eq_false_2 (_ < n)) by lia.
    rewrite bool_decide_eq_true_2 by lia. apply Hs; lia.
  - intros Hlo. unfold Value.str. rewrite !Hltb.
    rewrite bool_decide_eq_true_2 by lia. apply Hs; lia.
  - intros d Hd. by apply round_half_even_nearest.
  - repeat split; vm_compute; reflexivity.
Qed.

Lemma Value_str_scaled_witness :
  Value.str Python3 1500 = Ok (Py.str (Py.round_half_even 1500 (10 ^ 3)) +:+ "K").
Proof.
  apply (Value_str_scaled 1500); lia.
Defined.

(** C4 as stated fails at 999999: the value does not exceed [10^6], so it
    is scaled by [10^3] and printed as "1000K" by Python 3 (as "999K" by
    Python 2, whose [/] truncates and which prints 1500 as "1K"), never
    as "1M".  From [2^52] on the double quotient can also round away from
    the nearest integer: 16385499999999999 gives "16386T" although 16385
    is nearer. *)
Lemma Value_str_999999 :
  Value.str Python3 999999 = Ok "1000K"
  ∧ Value.str Python3 999999 ≠ Ok "1M"
  ∧ Value.str Python2 999999 = Ok "999K"
  ∧ Value.str Python2 1500 = Ok "1K"
  ∧ Value.str Python3 16385499999999999 = Ok "16386T"
  ∧ Z.abs (16385 * 10 ^ 12 - 16385499999999999)
    < Z.abs (16386 * 10 ^ 12 - 16385499999999999).
Proof.
  repeat split; try (vm_compute; reflexivity).
  vm_compute. discriminate.
Qed.

(** ** Sorting *)

Global Instance Z_key_order : KeyOrder Z.ltb.
Proof.
  split.
  - intros a b. rewrite Z.ltb_lt, Z.ltb_ge. lia.
  - intros a b c. rewrite !Z.ltb_ge. lia.
Qed.

Lemma String_ltb_false (a b : string) :
  String.ltb b a = false ↔ String.le a b.
Proof.
  unfold String.le, String.ltb, String.leb.
  rewrite (String.compare_antisym b a).
  destruct (String.compare a b); simpl; split; done.
Qed.

Global Instance string_key_order : KeyOrder String.ltb.
Proof.
  split.
  - intros a b Hab. apply String_ltb_false.
    unfold String.le, String.leb. unfold String.ltb in Hab.
    by destruct (String.compare a b).
  - intros a b c. rewrite !String_ltb_false. intros ??. by etrans.
Qed.

Section sorting.
Context {A K : Type} (lt : K → K → bool) (key : A → K) `{!KeyOrder lt}.

Local Abbreviation ascending := (ascending lt key).
Local Abbreviation descending := (descending lt key).

Lemma insert_by_perm (x : A) (l : list A) :
  Py.insert_by lt key x l ≡ₚ x :: l.
Proof.
  induction l as [|y l IH]; simpl; [done|].
  destruct (lt (key y) (key x)); [|done].
  rewrite IH. apply Permutation_swap.
Qed.

Lemma stable_sort_perm (l : list A) : Py.stable_sort lt key l ≡ₚ l.
Proof.
  induction l as [|x l IH]; simpl; [done|].
  by rewrite insert_by_perm, IH.
Qed.

Lemma insert_by_sorted (x : A) (l : list A) :
  StronglySorted ascending l →
  StronglySorted ascending (Py.insert_by lt key x l).
Proof.
  induction 1 as [|y l Hl IH Hy]; simpl.
  - repeat constructor.
  - destruct (lt (key y) (key x)) eqn:Hyx.
    + constructor; [done|].
      rewrite insert_by_perm. constructor; [|done].
      by apply lt_asym.
    + constructor; [by constructor|].
      constructor; [done|].
      eapply Forall_impl; [exact Hy|].
      intros z Hz. by apply (lt_cotrans (key x) (key y) (key z)).
Qed.

Lemma stable_sort_sorted (l : list A) :
  StronglySorted ascending (Py.stable_sort lt key l).
Proof.
  induction l as [|x l IH]; simpl; [constructor|].
  by apply insert_by_sorted.
Qed.

Lemma StronglySorted_rev (R : relation A) (l : list A) :
  StronglySorted R l → StronglySorted (flip R) (List.rev l).
Proof.
  induction 1 as [|x l Hl IH Hx]; simpl; [constructor|].
  apply StronglySorted_app_2; [|done|repeat constructor].
  intros x1 x2 Hx1 Hx2. apply list_elem_of_singleton in Hx2 as ->.
  rewrite Forall_forall in Hx. apply Hx.
  by apply list_elem_of_In, in_rev, list_elem_of_In.
Qed.

Lemma sorted_perm (l : list A) (reverse : bool) :
  Py.sorted lt key l reverse ≡ₚ l.
Proof.
  unfold Py.sorted. destruct reverse; [|apply stable_sort_perm].
  by rewrite <- Permutation_rev, stable_sort_perm, <- Permutation_rev.
Qed.

Lemma sorted_sorted (l : list A) (reverse : bool) :
  StronglySorted (if reverse then descending else ascending)
                 (Py.sorted lt key l reverse).
Proof.
  unfold Py.sorted. destruct reverse; [|apply stable_sort_sorted].
  apply (StronglySorted_rev ascending), stable_sort_sorted.
Qed.

End sorting.

(** ** ListPrinter.reset *)

Section reset.
Context {P Σ K : Type} {printable : Printable P Σ K}.
Context `{!KeyOrder (key_lt (Printable := printable))}.

Local Abbreviation ranked self submitted :=
  (Py.sorted key_lt sortOrder submitted (ListPrinter.descendingOrder self)).

(** The new generation is always a leading part of the sorted list. *)
Lemma reset_table_kept (self : ListPrinter.t P) (submitted : list P) :
  ∃ n, ListPrinter.printables (ListPrinter.reset_table self submitted)
       = Some (take n (ranked self submitted)).
Proof.
  unfold ListPrinter.reset_table, ListPrinter.kept. simpl.
  destruct (Py.truthy _).
  - unfold Py.slice_to. destruct (0 <=? _); eauto.
  - exists (length (ranked self submitted)). by rewrite take_ge.
Qed.

Lemma kept_submitted (self : ListPrinter.t P) (submitted : list P) :
  ListPrinter.kept self submitted ⊆ submitted.
Proof.
  destruct (reset_table_kept self submitted) as [n [= ->]].
  intros x Hx. apply elem_of_take in Hx as (i & Hi & _).
  rewrite <- (sorted_perm key_lt sortOrder submitted
                (ListPrinter.descendingOrder self)).
  apply list_elem_of_lookup. eauto.
Qed.

Lemma for_each_assert (rows : list P) (st : ListPrinter.state P Σ) :
  for_each rows ListPrinter.assert_Printable st
  = (st, if forallb isinstance_Printable rows then Ok ()
         else Raise AssertionError).
Proof.
  induction rows as [|row rows IH]; simpl; [done|].
  unfold mbind, action_bind, ListPrinter.assert_Printable at 1.
  destruct (isinstance_Printable row); simpl; [apply IH|done].
Qed.

(** [reset] as a whole: the table is updated in any case, and the call
    raises exactly when a row that was kept is not a [Printable]. *)
Lemma reset_spec (submitted : list P) (st : ListPrinter.state P Σ) :
  ListPrinter.reset submitted st
  = (ListPrinter.State
       (ListPrinter.reset_table (ListPrinter.table st) submitted)
       (ListPrinter.heap st) (ListPrinter.stdout st),
     if forallb isinstance_Printable
                (ListPrinter.kept (ListPrinter.table st) submitted)
     then Ok () else Raise AssertionError).
Proof.
  unfold ListPrinter.reset, mbind, action_bind,
    ListPrinter.assign_printables, ListPrinter.get_printables.
  simpl. apply for_each_assert.
Qed.

Lemma reset_returns (submitted : list P) (st : ListPrinter.state P Σ) :
  Forall (λ row, isinstance_Printable row = true) submitted →
  ListPrinter.reset submitted st
  = (ListPrinter.State
       (ListPrinter.reset_table (ListPrinter.table st) submitted)
       (ListPrinter.heap st) (ListPrinter.stdout st), Ok ()).
Proof.
  intros Hall. rewrite reset_spec.
  assert (forallb isinstance_Printable
            (ListPrinter.kept (ListPrinter.table st) submitted) = true)
    as ->; [|done].
  apply forallb_forall. intros row Hrow.
  rewrite Forall_forall in Hall. apply Hall.
  eapply kept_submitted. apply list_elem_of_In, Hrow.
Qed.

Lemma ranks_before_sorted (self : ListPrinter.t P) (submitted : list P) :
  StronglySorted (ranks_before (ListPrinter.descendingOrder self))
                 (ranked self submitted).
Proof.
  pose proof (sorted_sorted key_lt sortOrder submitted
                (ListPrinter.descendingOrder self)) as Hs.
  unfold ranks_before. by destruct (ListPrinter.descendingOrder self).
Qed.

(** C1, as the code has it.  On a table whose maximum row count is a
    positive integer, [reset] with [Printable] records returns normally
    and leaves as the current generation the submitted records sorted by
    key in the table's direction and cut to the maximum: at most [maxRows]
    rows (all of them when fewer were submitted), each of which ranks
    before every record left out; with [maxRows = 30] and 45 submitted
    records exactly 30 rows remain. *)
Theorem reset_ranks_and_truncates (st : ListPrinter.state P Σ)
    (submitted : list P) (maxRows : Z)
    (Hrecords : Forall (λ row, isinstance_Printable row = true) submitted)
    (Hmax : ListPrinter.maxLine (ListPrinter.table st) = Some maxRows)
    (Hpos : 0 < maxRows) :
  let direction := ListPrinter.descendingOrder (ListPrinter.table st) in
  ∃ st' kept dropped,
    ListPrinter.reset submitted st = (st', Ok ())
    ∧ ListPrinter.printables (ListPrinter.table st') = Some kept
    ∧ submitted ≡ₚ kept ++ dropped
    ∧ length kept = (Z.to_nat maxRows `min` length submitted)%nat
    ∧ Z.of_nat (length kept) ≤ maxRows
    ∧ StronglySorted (ranks_before direction) kept
    ∧ (∀ x y, x ∈ kept → y ∈ dropped → ranks_before direction x y)
    ∧ (maxRows = 30 → length submitted = 45%nat → length kept = 30%nat).
Proof.
  intros direction.
  set (self := ListPrinter.table st) in *.
  set (n := Z.to_nat maxRows).
  exists (ListPrinter.State (ListPrinter.reset_table self submitted)
                            (ListPrinter.heap st) (ListPrinter.stdout st)),
         (take n (ranked self submitted)), (drop n (ranked self submitted)).
  assert (length (ranked self submitted) = length submitted) as Hlen.
  { apply Permutation_length, sorted_perm. }
  assert (length (take n (ranked self submitted))
          = (n `min` length submitted)%nat) as Hkept.
  { by rewrite length_take, Hlen. }
  split; [by apply reset_returns|]. split.
  { simpl. unfold ListPrinter.kept. fold self. rewrite Hmax. simpl.
    destruct (Z.eqb_spec maxRows 0); [lia|]. simpl.
    unfold Py.slice_to. by destruct (Z.leb_spec 0 maxRows); [|lia]. }
  split; [by rewrite take_drop, sorted_perm|].
  split; [done|].
  split; [rewrite Hkept; lia|].
  split.
  { pose proof (ranks_before_sorted self submitted) as Hs.
    rewrite <- (take_drop n (ranked self submitted)) in Hs.
    by apply StronglySorted_app_1_l in Hs. }
  split.
  { intros x y Hx Hy.
    pose proof (ranks_before_sorted self submitted) as Hs.
    rewrite <- (take_drop n (ranked self submitted)) in Hs.
    by eapply StronglySorted_app_1_elem_of. }
  intros -> H45. rewrite Hkept, H45. subst n. lia.
Qed.
End reset.

Lemma reset_ranks_and_truncates_witness :
  ∃ st' kept dropped,
    ListPrinter.reset (Σ := ()) [op7; op101; op202]
      (ListPrinter.State Query_listPrinter () "") = (st', Ok ())
    ∧ ListPrinter.printables (ListPrinter.table st') = Some kept
    ∧ [op7; op101; op202] ≡ₚ kept ++ dropped
    ∧ length kept = (Z.to_nat 30 `min` 3)%nat
    ∧ Z.of_nat (length kept) ≤ 30
    ∧ StronglySorted (ranks_before (Σ := ()) true) kept
    ∧ (∀ x y, x ∈ kept → y ∈ dropped → ranks_before (Σ := ()) true x y)
    ∧ (30 = 30 → 3%nat = 45%nat → length kept = 30%nat).
Proof.
  apply (reset_ranks_and_truncates (Σ := ())
           (ListPrinter.State Query_listPrinter () "")
           [op7; op101; op202] 30); [|reflexivity|lia].
  repeat constructor.
Defined.

(** C1 as stated fails when the configured maximum is 0: the guard
    [if self.__maxLine] takes 0 for "no maximum", nothing is cut, and the
    generation holds more rows than the maximum. *)
Lemma reset_maxLine_0 :
  let self : ListPrinter.t operation :=
    ListPrinter.init ["Server"; "OpId"] true (Some 0) in
  ListPrinter.maxLine self = Some 0
  ∧ ListPrinter.reset [op101; op202] (ListPrinter.State self () "")
    = (ListPrinter.State
         (ListPrinter.Make ["Server"; "OpId"] [8; 6]%nat (Some 0) true
                           (Some [op101; op202])) () "",
       Ok ())
  ∧ ¬ (Z.of_nat (length [op101; op202]) ≤ 0).
Proof.
  split; [reflexivity|]. split; [reflexivity|]. simpl. lia.
Qed.

(** ** Query.sortOrder *)

Lemma StronglySorted_lookup {A : Type} (R : relation A) (l : list A)
  (i j : nat) (x y : A) :
  StronglySorted R l → l !! i = Some x → l !! j = Some y → (i < j)%nat →
  R x y.
Proof.
  intros Hs Hi Hj Hij.
  rewrite <- (take_drop j l) in Hs.
  eapply StronglySorted_app_1_elem_of; [exact Hs|..].
  - apply elem_of_take. eauto.
  - apply list_elem_of_lookup. exists 0%nat.
    by rewrite lookup_drop, Nat.add_0_r.
Qed.

(** C10.  The sort key of a [Query] is its duration when that is present
    and non-zero, and 0 when it is absent or 0; a query with key 0 then
    stands, in any descending table, after every submitted query with a
    positive duration (which is kept whenever the former is). *)
Theorem Query_sortOrder_rank (q : Query.t) :
  (∀ d, Query.duration q = Some d → d ≠ 0 → Query.sortOrder q = d)
  ∧ (Query.duration q = None ∨ Query.duration q = Some 0 →
     Query.sortOrder q = 0
     ∧ ∀ (Σ : Type) (self : ListPrinter.t operation)
         (submitted kept : list operation) (q' : Query.t) (d : Z) (i : nat),
         ListPrinter.descendingOrder self = true →
         Query.duration q' = Some d → 0 < d →
         Queried q' ∈ submitted →
         ListPrinter.printables
           (ListPrinter.reset_table (Σ := Σ) self submitted) = Some kept →
         kept !! i = Some (Queried q) →
         ∃ j, (j < i)%nat ∧ kept !! j = Some (Queried q')).
Proof.
  split.
  { intros d Hd Hne. unfold Query.sortOrder. rewrite Hd. simpl.
    by destruct (Z.eqb_spec d 0). }
  intros Hq.
  assert (Query.sortOrder q = 0) as Hkey.
  { unfold Query.sortOrder. by destruct Hq as [-> | ->]. }
  split; [done|].
  intros Σ self submitted kept q' d i Hdesc Hd Hpos Hin Hkept Hi.
  assert (Query.sortOrder q' = d) as Hkey'.
  { unfold Query.sortOrder. rewrite Hd. simpl.
    by destruct (Z.eqb_spec d 0); [lia|]. }
  destruct (reset_table_kept (Σ := Σ) self submitted) as [n Hn].
  rewrite Hn in Hkept. injection Hkept as <-.
  rewrite Hdesc in Hi |- *.
  set (ranked := Py.sorted Z.ltb operation_sortOrder submitted true).
  change (take n ranked !! i = Some (Queried q)) in Hi.
  change (∃ j, (j < i)%nat ∧ take n ranked !! j = Some (Queried q')).
  apply lookup_take_Some in Hi as [Hi Hin'].
  assert (Queried q' ∈ ranked) as Hin2.
  { unfold ranked. by rewrite (sorted_perm Z.ltb operation_sortOrder). }
  apply list_elem_of_lookup in Hin2 as [j Hj].
  pose proof (sorted_sorted Z.ltb operation_sortOrder submitted true) as Hs.
  fold ranked in Hs. simpl in Hs.
  destruct (Nat.lt_trichotomy j i) as [Hlt | [-> | Hgt]].
  - exists j. split; [done|]. rewrite lookup_take_lt by lia. done.
  - rewrite Hi in Hj. injection Hj as ->. lia.
  - pose proof (StronglySorted_lookup _ _ _ _ _ _ Hs Hi Hj Hgt) as Hr.
    unfold descending in Hr. simpl in Hr. rewrite Hkey, Hkey' in Hr.
    apply Z.ltb_ge in Hr. lia.
Qed.

Lemma Query_sortOrder_rank_witness :
  Query.sortOrder (Query.init srv2 202 "shop.users" "{}" None) = 0
  ∧ ∃ j, (j < 1)%nat ∧ [op101; op202] !! j = Some op101.
Proof.
  destruct (Query_sortOrder_rank (Query.init srv2 202 "shop.users" "{}" None))
    as [_ Hrank].
  destruct (Hrank (or_introl eq_refl)) as [Hkey Hafter].
  split; [exact Hkey|].
  apply (Hafter unit Query_listPrinter [op202; op101] [op101; op202]
           (Query.init srv1 101 "shop.orders" "{}" (Some 12)) 12 1%nat);
    [reflexivity | reflexivity | lia | | reflexivity | reflexivity].
  apply list_elem_of_In. simpl. tauto.
Defined.

(** ** Actions and what they preserve *)

Section preserves.
Context {S : Type} (R : relation S) `{!PreOrder R}.

Lemma preserves_ret {A : Type} (a : A) : preserves R (mret a : action S A).
Proof. intros s. simpl. reflexivity. Qed.

Lemma preserves_raise {A : Type} (e : exception) :
  preserves R (raise e : action S A).
Proof. intros s. simpl. reflexivity. Qed.

Lemma preserves_lift_result {A : Type} (r : result A) :
  preserves R (lift_result r : action S A).
Proof. intros s. simpl. reflexivity. Qed.

Lemma preserves_bind {A B : Type} (m : action S A) (f : A → action S B) :
  preserves R m → (∀ a, preserves R (f a)) → preserves R (m ≫= f).
Proof.
  intros Hm Hf s. unfold mbind, action_bind.
  specialize (Hm s). destruct (m s) as [s' [a|e]]; simpl in *; [|done].
  etrans; [exact Hm|apply Hf].
Qed.

Lemma preserves_for_each {A : Type} (l : list A) (body : A → action S ()) :
  (∀ x, preserves R (body x)) → preserves R (for_each l body).
Proof.
  intros Hbody. induction l as [|x l IH]; simpl.
  - apply preserves_ret.
  - apply preserves_bind; [apply Hbody|done].
Qed.
End preserves.

(** ** Column widths *)

Section widths.
Context {P Σ K : Type} {printable : Printable P Σ K}.

Global Instance widths_grow_preorder : PreOrder (@widths_grow P Σ).
Proof.
  split.
  - intros st. unfold widths_grow. by apply Forall_Forall2_diag, Forall_true.
  - intros st1 st2 st3 H12 H23. unfold widths_grow in *.
    eapply Forall2_trans; [|done..]. intros x y z ??. lia.
Qed.

Lemma widths_grow_same (st st' : ListPrinter.state P Σ) :
  ListPrinter.columnWidths (ListPrinter.table st')
    = ListPrinter.columnWidths (ListPrinter.table st) →
  widths_grow st st'.
Proof.
  intros Heq. unfold widths_grow. rewrite Heq.
  by apply Forall_Forall2_diag, Forall_true.
Qed.

Lemma Forall2_le_insert (l : list nat) (i w w' : nat) :
  l !! i = Some w → (w ≤ w')%nat → Forall2 le l (<[i := w']> l).
Proof.
  intros Hi Hle. apply Forall2_same_length_lookup.
  split; [by rewrite length_insert|].
  intros j x y Hx Hy. destruct (decide (i = j)) as [->|Hne].
  - rewrite list_lookup_insert_eq in Hy by (by eapply lookup_lt_Some).
    simplify_eq. done.
  - rewrite list_lookup_insert_ne in Hy by done. simplify_eq. done.
Qed.

(** What printing one cell does: the column takes the larger of its
    width and the cell's length plus 2, and the cell is padded to that. *)
Lemma print_cell_spec (index : nat) (cell : string)
    (st : ListPrinter.state P Σ) :
  match ListPrinter.columnWidths (ListPrinter.table st) !! index with
  | Some width =>
      let width' := (width `max` (String.length cell + 2))%nat in
      ∃ st', ListPrinter.print_cell index cell st = (st', Ok ())
        ∧ ListPrinter.columnWidths (ListPrinter.table st')
          = <[index := width']>
              (ListPrinter.columnWidths (ListPrinter.table st))
        ∧ ListPrinter.stdout st'
          = ListPrinter.stdout st +:+ Py.ljust cell width'
        ∧ ListPrinter.heap st' = ListPrinter.heap st
  | None => ListPrinter.print_cell index cell st = (st, Raise IndexError)
  end.
Proof.
  destruct st as [self σ out]. simpl.
  destruct (ListPrinter.columnWidths self !! index) as [width|] eqn:Hw.
  - unfold ListPrinter.print_cell, mbind, action_bind,
      ListPrinter.get_width at 1. simpl. rewrite Hw.
    pose proof (lookup_lt_Some _ _ _ Hw) as Hlt.
    destruct (Nat.ltb_spec width (String.length cell + 2)) as [Hgrow|Hfit].
    + unfold ListPrinter.set_width, ListPrinter.get_width. simpl.
      destruct (Nat.ltb_spec index (length (ListPrinter.columnWidths self)));
        [|lia]. simpl.
      rewrite list_lookup_insert_eq by done.
      rewrite Nat.max_r by lia. eexists. split; [reflexivity|]. done.
    + unfold ListPrinter.get_width. simpl. rewrite Hw.
      rewrite Nat.max_l by lia. eexists. split; [reflexivity|]. simpl.
      by rewrite list_insert_id.
  - unfold ListPrinter.print_cell, mbind, action_bind,
      ListPrinter.get_width at 1. simpl. by rewrite Hw.
Qed.

Lemma print_cell_grows (index : nat) (cell : string) :
  preserves (@widths_grow P Σ) (ListPrinter.print_cell index cell).
Proof.
  intros st. pose proof (print_cell_spec index cell st) as Hspec.
  destruct (ListPrinter.columnWidths (ListPrinter.table st) !! index)
    as [width|] eqn:Hw.
  - destruct Hspec as (st' & -> & Hwidths & _). simpl.
    unfold widths_grow. rewrite Hwidths.
    eapply Forall2_le_insert; [done|lia].
  - rewrite Hspec. simpl. reflexivity.
Qed.

Lemma print_grows (text : string) :
  preserves (@widths_grow P Σ) (ListPrinter.print text).
Proof. intros st. by apply widths_grow_same. Qed.

Lemma get_width_grows (index : nat) :
  preserves (@widths_grow P Σ) (ListPrinter.get_width index).
Proof.
  intros st. unfold ListPrinter.get_width.
  destruct (_ !! _); simpl; reflexivity.
Qed.

Lemma get_printables_grows :
  preserves (@widths_grow P Σ) ListPrinter.get_printables.
Proof.
  intros st. unfold ListPrinter.get_printables.
  destruct (ListPrinter.printables _); simpl; reflexivity.
Qed.

Lemma call_line_grows (printable0 : P) :
  preserves (@widths_grow P Σ) (ListPrinter.call_line printable0).
Proof.
  intros st. unfold ListPrinter.call_line.
  destruct (line printable0 (ListPrinter.heap st)). by apply widths_grow_same.
Qed.

Lemma printLines_grows :
  preserves (@widths_grow P Σ) ListPrinter.printLines.
Proof.
  unfold ListPrinter.printLines.
  apply preserves_bind; [apply _|intros st; reflexivity|]. intros headers.
  apply preserves_bind; [apply _| |].
  { apply preserves_for_each; [apply _|]. intros [index header].
    apply preserves_bind; [apply _|apply get_width_grows|].
    intros width. apply print_grows. }
  intros _. apply preserves_bind; [apply _|apply print_grows|].
  intros _. apply preserves_bind; [apply _|apply get_printables_grows|].
  intros rows. apply preserves_for_each; [apply _|]. intros row.
  unfold ListPrinter.print_row.
  apply preserves_bind; [apply _|apply call_line_grows|]. intros cells.
  apply preserves_bind; [apply _| |intros _; apply print_grows].
  apply preserves_for_each; [apply _|]. intros [index cell].
  apply print_cell_grows.
Qed.

Lemma reset_grows (submitted : list P) :
  preserves (@widths_grow P Σ) (ListPrinter.reset submitted).
Proof. intros st. rewrite reset_spec. by apply widths_grow_same. Qed.

Lemma scan_grows (rows : list P) (line0 : list string) :
  preserves (@widths_grow P Σ) (ListPrinter.scan rows line0).
Proof.
  induction rows as [|row rows IH]; simpl.
  - apply preserves_ret; apply _.
  - apply preserves_bind; [apply _|apply call_line_grows|]. intros cells.
    apply preserves_bind; [apply _|apply preserves_lift_result; apply _|].
    intros [|]; [done|apply preserves_ret; apply _].
Qed.

Lemma getLine_grows (line0 : list string) :
  preserves (@widths_grow P Σ) (ListPrinter.getLine line0).
Proof.
  unfold ListPrinter.getLine.
  apply preserves_bind; [apply _|apply get_printables_grows|].
  intros rows. apply scan_grows.
Qed.

Lemma perform_grows (c : call P) : preserves (@widths_grow P Σ) (perform c).
Proof.
  destruct c; simpl.
  - apply reset_grows.
  - apply printLines_grows.
  - apply preserves_bind; [apply _|apply getLine_grows|].
    intros _. apply preserves_ret; apply _.
Qed.

Lemma lifetime_grows (calls : list (call P)) (st : ListPrinter.state P Σ) :
  widths_grow st (lifetime calls st).
Proof.
  revert st. induction calls as [|c calls IH]; intros st; simpl.
  - reflexivity.
  - etrans; [apply perform_grows|apply IH].
Qed.

End widths.

(** ** ListPrinter.getLine *)

(** How the comparison loop ends, by what is left of the printed line at
    the position it starts from: it finds no difference when the supplied
    cells begin that remainder, runs off the end of the printed line when
    the remainder is a shorter beginning of the supplied cells, and finds
    a difference otherwise. *)
Lemma compare_from_spec (printableLine rest : list string) (index : nat) :
  ListPrinter.compare_from printableLine rest index =
    if bool_decide (rest `prefix_of` drop index printableLine) then Ok false
    else if bool_decide (drop index printableLine `prefix_of` rest)
         then Raise IndexError
         else Ok true.
Proof.
  revert index. induction rest as [|cell rest IH]; intros index;
    cbn [ListPrinter.compare_from].
  - rewrite bool_decide_eq_true_2; [done|apply prefix_nil].
  - destruct (printableLine !! index) as [printed|] eqn:Hi.
    + rewrite (drop_S _ _ _ Hi).
      destruct (String.eqb_spec printed cell) as [->|Hne].
      * rewrite IH.
        repeat case_bool_decide; try done;
          repeat match goal with
                 | H : _ :: _ `prefix_of` _ :: _ |- _ =>
                     apply prefix_cons_inv_2 in H
                 | H : ¬ _ :: _ `prefix_of` _ :: _ |- _ =>
                     exfalso; apply H; by apply prefix_cons
                 end; done.
      * rewrite bool_decide_eq_false_2
          by (intros H; by apply prefix_cons_inv_1 in H).
        rewrite bool_decide_eq_false_2
          by (intros H; by apply prefix_cons_inv_1 in H).
        done.
    + apply lookup_ge_None in Hi. rewrite drop_ge by done.
      rewrite bool_decide_eq_false_2 by apply prefix_nil_not.
      rewrite bool_decide_eq_true_2; [done|apply prefix_nil].
Qed.

Section getLine.
Context {P Σ K : Type} {printable : Printable P Σ K}.
(** Rendering is a function of the row alone, as for operations. *)
Context (cells : P → list string).
Context (line_pure : ∀ row σ, line row σ = (σ, Ok (cells row))).

Lemma call_line_pure (row : P) (st : ListPrinter.state P Σ) :
  ListPrinter.call_line row st = (st, Ok (cells row)).
Proof.
  unfold ListPrinter.call_line. rewrite line_pure. by destruct st.
Qed.

Lemma scan_first_match (rows : list P) (supplied : list string)
    (st : ListPrinter.state P Σ) :
  Forall (λ row, length supplied ≤ length (cells row))%nat rows →
  ∃ found, ListPrinter.scan rows supplied st = (st, Ok found)
    ∧ match found with
      | Some row =>
          ∃ before after, rows = before ++ row :: after
            ∧ supplied `prefix_of` cells row
            ∧ Forall (λ other, ¬ supplied `prefix_of` cells other) before
      | None => Forall (λ other, ¬ supplied `prefix_of` cells other) rows
      end.
Proof.
  induction 1 as [|row rows Hlen Hrows IH]; simpl.
  - exists None. by split.
  - unfold mbind, action_bind. rewrite call_line_pure.
    unfold lift_result. rewrite compare_from_spec, drop_0.
    case_bool_decide as Hmatch.
    + exists (Some row). split; [done|].
      exists [], rows. by repeat split.
    + case_bool_decide as Hshort.
      { apply prefix_length in Hshort as Hle.
        exfalso. apply Hmatch.
        destruct Hshort as [extra ->].
        rewrite length_app in Hlen.
        assert (extra = []) as -> by (apply nil_length_inv; lia).
        by rewrite app_nil_r. }
      destruct IH as (found & -> & Hfound).
      exists found. split; [done|].
      destruct found as [row'|].
      * destruct Hfound as (before & after & -> & Hpre & Hnone).
        exists (row :: before), after. repeat split; [done|].
        by constructor.
      * by constructor.
Qed.

(** C3, as the code has it.  When the table has a current generation
    and the supplied cells are no more numerous than the cells of any of
    its rows, [getLine] returns the first row, in the generation's order,
    whose cells begin with the supplied ones, and [None], without raising,
    when no row does.  With rows showing "srv1", "101", ... and "srv2",
    "202", ..., the cells "srv1", "101" find the first row and the cells
    "srv3", "1" find none. *)
Theorem getLine_first_match (st : ListPrinter.state P Σ) (rows : list P)
    (supplied : list string)
    (Hrows : ListPrinter.printables (ListPrinter.table st) = Some rows)
    (Hlen : Forall (λ row, length supplied ≤ length (cells row))%nat rows) :
  (∃ found, ListPrinter.getLine supplied st = (st, Ok found)
     ∧ match found with
       | Some row =>
           ∃ before after, rows = before ++ row :: after
             ∧ supplied `prefix_of` cells row
             ∧ Forall (λ other, ¬ supplied `prefix_of` cells other) before
       | None => Forall (λ other, ¬ supplied `prefix_of` cells other) rows
       end)
  ∧ take 2 (operation_line op101) = ["srv1"; "101"]
  ∧ take 2 (operation_line op202) = ["srv2"; "202"]
  ∧ ListPrinter.printables (ListPrinter.table operations_shown)
    = Some [op101; op202]
  ∧ ListPrinter.getLine ["srv1"; "101"] operations_shown
    = (operations_shown, Ok (Some op101))
  ∧ ListPrinter.getLine ["srv3"; "1"] operations_shown
    = (operations_shown, Ok None).
Proof.
  split; [|by vm_compute].
  unfold ListPrinter.getLine, mbind, action_bind,
    ListPrinter.get_printables.
  rewrite Hrows. by apply scan_first_match.
Qed.
End getLine.

Lemma getLine_first_match_witness :
  ∃ found, ListPrinter.getLine ["srv2"; "202"] operations_shown
           = (operations_shown, Ok found)
    ∧ match found with
      | Some row =>
          ∃ before after, [op101; op202] = before ++ row :: after
            ∧ ["srv2"; "202"] `prefix_of` operation_line row
            ∧ Forall (λ other,
                        ¬ ["srv2"; "202"] `prefix_of` operation_line other)
                     before
      | None =>
          Forall (λ other, ¬ ["srv2"; "202"] `prefix_of` operation_line other)
                 [op101; op202]
      end.
Proof.
  apply (getLine_first_match (P := operation) (Σ := ())
           (printable := operation_printable) operation_line
           (λ row σ, eq_refl (σ, Ok (operation_line row)))
           operations_shown [op101; op202] ["srv2"; "202"] eq_refl).
  repeat constructor; simpl; lia.
Defined.

(** C3 as stated fails when more cells are supplied than a row shows: the
    loop indexes the row's cells by the position in the supplied ones, so
    a row that agrees on all of its own cells ends the search with an
    [IndexError], here although no row of the generation matches. *)
Lemma getLine_short_row :
  ListPrinter.printables (ListPrinter.table generic_shown) = Some [op7]
  ∧ operation_line op7 = ["srv1"; "7"]
  ∧ ¬ ["srv1"; "7"; "shop.orders"] `prefix_of` operation_line op7
  ∧ ListPrinter.getLine ["srv1"; "7"; "shop.orders"] generic_shown
    = (generic_shown, Raise IndexError).
Proof.
  split; [reflexivity|]. split; [reflexivity|]. split; [|reflexivity].
  intros Hpre. apply prefix_length in Hpre. simpl in Hpre. lia.
Qed.

(** ** Arity of the rows *)

(** C7, as the code has it.  [reset] has no check on the number of
    cells: it stores the new generation, made of submitted records only
    and of all of them when nothing has to be cut, and then raises (an
    [AssertionError]) exactly when a record it kept is not a [Printable].
    A table can so hold rows with fewer cells than it has headers: every
    generic [Operation] renders 2 cells, the operations table has 5
    headers, holds such a row after [reset] and prints it without error. *)
Theorem reset_accepts_any_arity {P Σ K : Type} {printable : Printable P Σ K}
    (st : ListPrinter.state P Σ) (submitted : list P) :
  (∃ st' kept,
     (ListPrinter.reset submitted st).1 = st'
     ∧ ListPrinter.printables (ListPrinter.table st') = Some kept
     ∧ kept ⊆ submitted
     ∧ ((ListPrinter.reset submitted st).2 = Ok ()
        ↔ Forall (λ row, isinstance_Printable row = true) kept)
     ∧ ((ListPrinter.reset submitted st).2 = Ok ()
        ∨ (ListPrinter.reset submitted st).2 = Raise AssertionError)
     ∧ (ListPrinter.maxLine (ListPrinter.table st) = None
        ∨ (∃ maxRows, ListPrinter.maxLine (ListPrinter.table st) = Some maxRows
                      ∧ Z.of_nat (length submitted) ≤ maxRows) →
        kept ≡ₚ submitted))
  ∧ (∀ o, length (operation_line (Generic o)) = 2%nat)
  ∧ length (ListPrinter.columnHeaders Query_listPrinter) = 5%nat
  ∧ ListPrinter.reset [op7] (ListPrinter.State Query_listPrinter () "")
    = (generic_shown, Ok ())
  ∧ ListPrinter.printables (ListPrinter.table generic_shown) = Some [op7]
  ∧ (ListPrinter.printLines generic_shown).2 = Ok ().
Proof.
  split; [|by vm_compute].
  rewrite reset_spec. simpl.
  exists (ListPrinter.State
            (ListPrinter.reset_table (ListPrinter.table st) submitted)
            (ListPrinter.heap st) (ListPrinter.stdout st)),
         (ListPrinter.kept (ListPrinter.table st) submitted).
  split; [done|]. split; [done|]. split; [apply kept_submitted|].
  pose proof (sorted_perm key_lt sortOrder submitted
                (ListPrinter.descendingOrder (ListPrinter.table st))) as Hp.
  split.
  { destruct (forallb _ _) eqn:Hall.
    - split; [|done]. intros _. apply Forall_forall. intros row Hrow.
      rewrite forallb_forall in Hall. by apply Hall, list_elem_of_In.
    - split; [done|]. intros Hforall. exfalso.
      apply not_true_iff_false in Hall. apply Hall, forallb_forall.
      intros row Hrow. rewrite Forall_forall in Hforall.
      by apply Hforall, list_elem_of_In. }
  split; [destruct (forallb _ _); eauto|].
  intros Hall. unfold ListPrinter.kept.
  destruct Hall as [-> | (maxRows & -> & Hroom)]; [done|]. simpl.
  destruct (Z.eqb_spec maxRows 0); [done|]. simpl.
  unfold Py.slice_to. destruct (Z.leb_spec 0 maxRows); [|lia].
  rewrite take_ge; [done|].
  rewrite (Permutation_length Hp). lia.
Qed.

Lemma reset_accepts_any_arity_witness :
  ∃ st' kept,
    (ListPrinter.reset [op7] (ListPrinter.State Query_listPrinter () "")).1
      = st'
    ∧ ListPrinter.printables (ListPrinter.table st') = Some kept
    ∧ kept ≡ₚ [op7].
Proof.
  destruct (reset_accepts_any_arity
              (ListPrinter.State Query_listPrinter () "") [op7])
    as [(st' & kept & Hrun & Hkept & _ & _ & _ & Hall) _].
  exists st', kept. split; [exact Hrun|]. split; [exact Hkept|].
  apply Hall. right. exists 30. split; [reflexivity|simpl; lia].
Defined.

(** C7 as stated fails on the operations table itself: a generic
    [Operation] renders 2 cells under 5 headers, and [reset] takes it. *)
Lemma reset_keeps_short_row :
  length (operation_line op7) = 2%nat
  ∧ length (ListPrinter.columnHeaders Query_listPrinter) = 5%nat
  ∧ ListPrinter.reset [op7] (ListPrinter.State Query_listPrinter () "")
    = (generic_shown, Ok ())
  ∧ ListPrinter.printables (ListPrinter.table generic_shown) = Some [op7].
Proof. by vm_compute. Qed.

(** ** Listing the operations *)

Lemma all_operations_raises (deployment : remote) (servers : list Server.t)
    (server : Server.t) (e : exception) :
  server ∈ servers → currentOperations deployment server = Raise e →
  ∃ e', all_operations deployment servers = Raise e'.
Proof.
  intros Hin Hfail. induction servers as [|first servers IH]; simpl.
  - by apply not_elem_of_nil in Hin.
  - destruct (currentOperations deployment first) as [ops|e1] eqn:Hfirst;
      [|eauto].
    apply elem_of_cons in Hin as [->|Hin]; [congruence|].
    destruct (IH Hin) as [e' ->]. eauto.
Qed.

Lemma all_operations_collects (deployment : remote)
    (servers : list Server.t) (listed : list (list operation)) :
  Forall2 (λ server operations,
             currentOperations deployment server = Ok operations)
          servers listed →
  all_operations deployment servers = Ok (concat listed).
Proof.
  induction 1 as [|server operations servers listed Hs _ IH]; simpl; [done|].
  by rewrite Hs, IH.
Qed.

(** C8, as the code has it.  The listing has no handler: when the remote
    call of any one monitored server fails, the listing of the whole tick
    raises, the pass of the main loop ends with that exception, the
    operations table keeps the generation it had and nothing is drawn.
    The operations of all servers are collected, in the order of the
    servers, only when every call succeeds. *)
Theorem one_failure_aborts_listing (py : python) (c : console)
    (server : Server.t) (e : exception)
    (Hin : server ∈ servers (monitored c))
    (Hfail : currentOperations (deployment (monitored c)) server = Raise e) :
  (∃ c' e',
     all_operations (deployment (monitored c)) (servers (monitored c))
       = Raise e'
     ∧ tick py c = (c', Raise e')
     ∧ queryPrinter c' = queryPrinter c
     ∧ screen c' = screen c)
  ∧ (∀ deployment servers listed,
       Forall2 (λ server operations,
                  currentOperations deployment server = Ok operations)
               servers listed →
       all_operations deployment servers = Ok (concat listed)).
Proof.
  split; [|apply all_operations_collects].
  destruct (all_operations_raises _ _ _ _ Hin Hfail) as [e' He'].
  unfold tick, mbind, action_bind. simpl. unfold on_servers at 1.
  rewrite (reset_returns (printable := server_printable py))
    by (by apply Forall_true).
  unfold lift_result. rewrite He'. simpl. eauto 10.
Qed.

Lemma one_failure_aborts_listing_witness :
  ∃ c' e',
    all_operations db1_down [srv1; srv2] = Raise e'
    ∧ tick Python3 console0 = (c', Raise e')
    ∧ queryPrinter c' = Query_listPrinter
    ∧ screen c' = "".
Proof.
  apply (one_failure_aborts_listing Python3 console0 srv1
           (ConnectionFailure "db1.example:27017")).
  - apply list_elem_of_In. simpl. tauto.
  - reflexivity.
Defined.

(** C8 as stated fails with two servers of which the first cannot be
    asked: the second one has a query in progress, yet the listing is not
    that query but the first server's exception, and the pass ends with it
    before anything is shown. *)
Lemma failure_is_not_skipped :
  currentOperations db1_down srv1
    = Raise (ConnectionFailure "db1.example:27017")
  ∧ currentOperations db1_down srv2 = Ok [op202]
  ∧ all_operations db1_down [srv1; srv2]
    = Raise (ConnectionFailure "db1.example:27017")
  ∧ all_operations db1_down [srv1; srv2] ≠ Ok [op202]
  ∧ (tick Python3 console0).2 = Raise (ConnectionFailure "db1.example:27017")
  ∧ ListPrinter.printables (queryPrinter (tick Python3 console0).1) = None.
Proof.
  repeat split; try reflexivity. discriminate.
Qed.

(** ** Server *)

(** C9.  [Server.__init__] ends with an [AssertionError], before any
    connection is opened, for every name of 14 characters or more; a
    server that was constructed has the name it was given, of at most 13
    characters. *)
Theorem Server_init_name_length (name address : string)
    (net : Server.network) :
  ((14 ≤ String.length name)%nat →
   Server.init name address net = (net, Raise AssertionError))
  ∧ (∀ net' self, Server.init name address net = (net', Ok self) →
       Server.name self = name ∧ (String.length (Server.name self) ≤ 13)%nat).
Proof.
  unfold Server.init. split.
  - intros Hlong. by destruct (Nat.ltb_spec (String.length name) 14); [lia|].
  - intros net' self. destruct (Nat.ltb_spec (String.length name) 14);
      [|discriminate].
    unfold mbind, action_bind, Server.Connection.
    destruct (connect (Server.peer net) address); [|discriminate].
    simpl. intros [= <- <-]. simpl. split; [done|lia].
Qed.

Lemma Server_init_name_length_witness :
  Server.init "a-name-too-long" "db1.example:27017" (Server.Network db1_down [])
    = (Server.Network db1_down [], Raise AssertionError)
  ∧ Server.name srv1 = "srv1" ∧ (String.length (Server.name srv1) ≤ 13)%nat.
Proof.
  split.
  - apply (Server_init_name_length "a-name-too-long" "db1.example:27017"
             (Server.Network db1_down [])). simpl. lia.
  - apply (Server_init_name_length "srv1" "db1.example:27017"
             (Server.Network db1_down [])
           ) with (net' := Server.Network db1_down ["db1.example:27017"]).
    reflexivity.
Defined.

(** C6.  [currentOperations] turns each entry the server reports, in
    order, into a [Query] with the reported duration when its [op] is
    "query" and [secs_running] is present, into a [Query] without duration
    when [op] is "query" and [secs_running] is missing, and into a plain
    [Operation] for any other [op]. *)
Theorem currentOperations_classifies (deployment : remote) (self : Server.t)
    (entries : list inprog) (entry : inprog) :
  (current_op deployment (Server.address self) = Ok entries →
   currentOperations deployment self = Ok (classify self <$> entries))
  ∧ (op entry = "query" → ∀ seconds, secs_running entry = Some seconds →
     ∃ q, classify self entry = Queried q
       ∧ q = Query.init self (opid entry) (ns entry) (query entry)
                        (Some seconds)
       ∧ Query.duration q = Some seconds)
  ∧ (op entry = "query" → secs_running entry = None →
     ∃ q, classify self entry = Queried q
       ∧ q = Query.init self (opid entry) (ns entry) (query entry) None
       ∧ Query.duration q = None)
  ∧ (op entry ≠ "query" →
     classify self entry = Generic (Operation.Make self (opid entry))).
Proof.
  unfold currentOperations, classify. repeat split.
  - by intros ->.
  - intros -> seconds ->. simpl. eauto.
  - intros -> ->. simpl. eauto.
  - intros Hop. by destruct (String.eqb_spec (op entry) "query").
Qed.

Lemma currentOperations_classifies_witness :
  currentOperations db1_down srv2
    = Ok (classify srv2 <$> [InProg "query" 202 "shop.users" "{}" None])
  ∧ (∃ q, classify srv1 (InProg "query" 101 "shop.orders" "{}" (Some 12))
          = Queried q
      ∧ q = Query.init srv1 101 "shop.orders" "{}" (Some 12)
      ∧ Query.duration q = Some 12)
  ∧ (∃ q, classify srv2 (InProg "query" 202 "shop.users" "{}" None)
          = Queried q
      ∧ q = Query.init srv2 202 "shop.users" "{}" None
      ∧ Query.duration q = None)
  ∧ classify srv1 (InProg "getmore" 7 "shop.orders" "{}" (Some 3))
    = Generic (Operation.Make srv1 7).
Proof.
  split; [|split; [|split]].
  - apply (currentOperations_classifies db1_down srv2
             [InProg "query" 202 "shop.users" "{}" None]
             (InProg "query" 202 "shop.users" "{}" None)). reflexivity.
  - apply (currentOperations_classifies db1_down srv1 []
             (InProg "query" 101 "shop.orders" "{}" (Some 12)));
      reflexivity.
  - apply (currentOperations_classifies db1_down srv2 []
             (InProg "query" 202 "shop.users" "{}" None)); reflexivity.
  - apply (currentOperations_classifies db1_down srv1 []
             (InProg "getmore" 7 "shop.orders" "{}" (Some 3))).
    simpl. discriminate.
Defined.

(** ** Snapshot counters *)

Lemma changes_cons (previous value : Z) (values : list Z) :
  changes previous (value :: values)
  = (value - previous) :: changes value values.
Proof. done. Qed.

Lemma changes_nonneg (previous : Z) (values : list Z) :
  Sorted Z.le (previous :: values) →
  Forall (λ delta, 0 ≤ delta) (changes previous values).
Proof.
  revert previous. induction values as [|value values IH]; intros previous Hs.
  - constructor.
  - rewrite changes_cons. apply Sorted_inv in Hs as [Hs Hhd].
    apply HdRel_inv in Hhd. constructor; [lia|by apply IH].
Qed.

Lemma samples_flushCount (values : list Z) (self : Server.t) :
  samples Server.getFlushCountChange values self
  = (Server.Make (Server.name self) (Server.address self)
                 (Server.operationCount self)
                 (default (Server.flushCount self) (last values)),
     Ok (changes (Server.flushCount self) values)).
Proof.
  revert self. induction values as [|value values IH]; intros self.
  - by destruct self.
  - cbn [samples]. unfold mbind, action_bind at 1.
    unfold Server.getFlushCountChange at 1. cbn beta iota zeta.
    unfold mbind, action_bind at 1. rewrite IH. simpl.
    rewrite changes_cons. unfold mret, action_ret.
    f_equal. f_equal.
    rewrite last_cons. by destruct (last values).
Qed.

Lemma samples_operationCount (counts : list (gmap string Z))
    (self : Server.t) :
  samples Server.getOperationCountChange counts self
  = (Server.Make (Server.name self) (Server.address self)
                 (default (Server.operationCount self)
                          (last (Server.total <$> counts)))
                 (Server.flushCount self),
     Ok (changes (Server.operationCount self) (Server.total <$> counts))).
Proof.
  revert self. induction counts as [|count counts IH]; intros self.
  - by destruct self.
  - cbn [samples]. unfold mbind, action_bind at 1.
    unfold Server.getOperationCountChange at 1. cbn beta iota zeta.
    unfold mbind, action_bind at 1. rewrite IH. simpl.
    rewrite changes_cons. unfold mret, action_ret.
    f_equal. f_equal.
    rewrite last_cons. by destruct (last _).
Qed.

(** C2.  Both counters of a constructed server start at 0.  Each call
    stores the new cumulative value (for operations the sum of the
    counters) and returns it minus the value stored before; so over any
    sequence of calls every change is the current value minus the previous
    one, and no change is negative when the values, from the stored one
    on, never decrease.  From 0, the values 50 and 70 give 50 and 20. *)
Theorem snapshot_counter_delta (self : Server.t) (values : list Z)
    (counts : list (gmap string Z)) :
  (∀ name address net net' fresh,
     Server.init name address net = (net', Ok fresh) →
     Server.operationCount fresh = 0 ∧ Server.flushCount fresh = 0)
  ∧ (∀ value,
       ∃ self', Server.getFlushCountChange value self
                = (self', Ok (value - Server.flushCount self))
         ∧ Server.flushCount self' = value)
  ∧ (∀ count,
       ∃ self', Server.getOperationCountChange count self
                = (self', Ok (Server.total count
                              - Server.operationCount self))
         ∧ Server.operationCount self' = Server.total count)
  ∧ (∃ self', samples Server.getFlushCountChange values self
              = (self', Ok (changes (Server.flushCount self) values)))
  ∧ (∃ self', samples Server.getOperationCountChange counts self
              = (self', Ok (changes (Server.operationCount self)
                                    (Server.total <$> counts))))
  ∧ (Sorted Z.le (Server.flushCount self :: values) →
     Forall (λ delta, 0 ≤ delta) (changes (Server.flushCount self) values))
  ∧ (Sorted Z.le (Server.operationCount self :: (Server.total <$> counts)) →
     Forall (λ delta, 0 ≤ delta)
            (changes (Server.operationCount self) (Server.total <$> counts)))
  ∧ (Server.flushCount self = 0 →
     (samples Server.getFlushCountChange [50; 70] self).2 = Ok [50; 20])
  ∧ (Server.operationCount self = 0 →
     (samples Server.getOperationCountChange
        [{[ "query" := 50 ]}; {[ "query" := 50; "insert" := 20 ]}] self).2
     = Ok [50; 20]).
Proof.
  split.
  { intros name address net net' fresh. unfold Server.init.
    destruct (_ <? _)%nat; [|discriminate].
    unfold mbind, action_bind, Server.Connection.
    destruct (connect _ _); [|discriminate]. by intros [= <- <-]. }
  split; [intros value; by eexists|].
  split; [intros count; by eexists|].
  split; [eexists; apply samples_flushCount|].
  split; [eexists; apply samples_operationCount|].
  split; [apply changes_nonneg|].
  split; [apply changes_nonneg|].
  split.
  - intros Hzero. rewrite samples_flushCount, Hzero. reflexivity.
  - intros Hzero. rewrite samples_operationCount, Hzero. by vm_compute.
Qed.

Lemma snapshot_counter_delta_witness :
  Forall (λ delta, 0 ≤ delta) (changes 0 [50; 70])
  ∧ (samples Server.getFlushCountChange [50; 70] srv1).2 = Ok [50; 20].
Proof.
  pose proof (snapshot_counter_delta srv1 [50; 70] [])
    as (_ & _ & _ & _ & _ & Hflush & _ & Hexample & _).
  split.
  - apply Hflush.
    repeat first [apply Sorted_nil | apply Sorted_cons
                 | apply HdRel_nil | apply HdRel_cons]; simpl; lia.
  - apply Hexample. reflexivity.
Defined.

(** * Further properties *)

(** ** More on Value *)

Lemma Value_str_plain (py : python) (n : Z) :
  n ≤ 10 ^ 3 → Value.str py n = Ok (Py.str n).
Proof.
  intros Hn. unfold Value.str.
  destruct (Z.ltb_spec (10 ^ 12) n); [lia|].
  destruct (Z.ltb_spec (10 ^ 9) n); [lia|].
  destruct (Z.ltb_spec (10 ^ 6) n); [lia|].
  destruct (Z.ltb_spec (10 ^ 3) n); [lia|]. done.
Qed.

Lemma round_half_even_one (n : Z) : Py.round_half_even n 1 = n.
Proof.
  rewrite (round_half_even_intro n 1 n 0) by lia. done.
Qed.

Lemma div_round_python2 (n d : Z) :
  0 < d ≤ n → n < 2 ^ 52 → Py.div_round Python2 n d = Ok (n `div` d).
Proof.
  intros Hd Hn.
  change (Py.div_round Python2 n d) with (Py.div_round Python3 (n `div` d) 1).
  assert (1 ≤ n `div` d) by (apply Z.div_le_lower_bound; lia).
  assert (n `div` d ≤ n) by (apply Z.div_le_upper_bound; nia).
  rewrite div_round_small by lia. by rewrite round_half_even_one.
Qed.

Lemma Value_str_branch (py : python) (n d : Z) (suffix : string) :
  Value.str py n = Value.with_suffix py n d suffix →
  0 < d ≤ n → n < 2 ^ 52 →
  Value.str py n
  = Ok (Py.str (match py with
                | Python2 => n `div` d
                | Python3 => Py.round_half_even n d
                end) +:+ suffix).
Proof.
  intros -> Hd Hn. unfold Value.with_suffix.
  destruct py; [by rewrite div_round_python2|by rewrite div_round_small].
Qed.

Lemma Value_str_cases (py : python) (n : Z) :
  10 ^ 3 < n →
  ∃ d suffix,
    Value.str py n = Value.with_suffix py n d suffix
    ∧ d < n
    ∧ (d, suffix) ∈ [(10 ^ 3, "K"); (10 ^ 6, "M"); (10 ^ 9, "G");
                     (10 ^ 12, "T")]
    ∧ (n ≤ 10 ^ 12 → n ≤ 1000 * d).
Proof.
  intros Hn. unfold Value.str.
  destruct (Z.ltb_spec (10 ^ 12) n).
  { exists (10 ^ 12), "T". split; [done|]. split; [done|].
    split; [|lia]. do 3 right; left. }
  destruct (Z.ltb_spec (10 ^ 9) n).
  { exists (10 ^ 9), "G". split; [done|]. split; [done|].
    split; [|lia]. do 2 right; left. }
  destruct (Z.ltb_spec (10 ^ 6) n).
  { exists (10 ^ 6), "M". split; [done|]. split; [done|].
    split; [|lia]. right; left. }
  destruct (Z.ltb_spec (10 ^ 3) n); [|lia].
  exists (10 ^ 3), "K". split; [done|]. split; [done|].
  split; [|lia]. left.
Qed.

(** X1.  Run by Python 2, whose [/] on integers is floor division, a
    value above [10^3] and below [2^52] shows the quotient by the largest
    threshold it exceeds cut down to an integer, not rounded. *)
Theorem Value_str_python2_truncates (n : Z) (Hn : 0 ≤ n < 2 ^ 52) :
  (n ≤ 10 ^ 3 → Value.str Python2 n = Ok (Py.str n))
  ∧ (10 ^ 3 < n ≤ 10 ^ 6 →
     Value.str Python2 n = Ok (Py.str (n `div` 10 ^ 3) +:+ "K"))
  ∧ (10 ^ 6 < n ≤ 10 ^ 9 →
     Value.str Python2 n = Ok (Py.str (n `div` 10 ^ 6) +:+ "M"))
  ∧ (10 ^ 9 < n ≤ 10 ^ 12 →
     Value.str Python2 n = Ok (Py.str (n `div` 10 ^ 9) +:+ "G"))
  ∧ (10 ^ 12 < n →
     Value.str Python2 n = Ok (Py.str (n `div` 10 ^ 12) +:+ "T")).
Proof.
  split; [apply Value_str_plain|].
  assert (∀ d suffix, Value.str Python2 n
                      = Value.with_suffix Python2 n d suffix →
            0 < d ≤ n →
            Value.str Python2 n = Ok (Py.str (n `div` d) +:+ suffix)) as Hb.
  { intros d suffix Heq Hd.
    apply (Value_str_branch Python2 n d suffix Heq); lia. }
  split; [|split; [|split]].
  - intros [Hlo Hhi]. apply Hb; [|lia]. unfold Value.str.
    destruct (Z.ltb_spec (10 ^ 12) n); [lia|].
    destruct (Z.ltb_spec (10 ^ 9) n); [lia|].
    destruct (Z.ltb_spec (10 ^ 6) n); [lia|].
    by destruct (Z.ltb_spec (10 ^ 3) n); [|lia].
  - intros [Hlo Hhi]. apply Hb; [|lia]. unfold Value.str.
    destruct (Z.ltb_spec (10 ^ 12) n); [lia|].
    destruct (Z.ltb_spec (10 ^ 9) n); [lia|].
    by destruct (Z.ltb_spec (10 ^ 6) n); [|lia].
  - intros [Hlo Hhi]. apply Hb; [|lia]. unfold Value.str.
    destruct (Z.ltb_spec (10 ^ 12) n); [lia|].
    by destruct (Z.ltb_spec (10 ^ 9) n); [|lia].
  - intros Hlo. apply Hb; [|lia]. unfold Value.str.
    by destruct (Z.ltb_spec (10 ^ 12) n); [|lia].
Qed.

Lemma Value_str_python2_truncates_witness :
  Value.str Python2 1999 = Ok (Py.str (1999 `div` 10 ^ 3) +:+ "K").
Proof.
  apply (Value_str_python2_truncates 1999); lia.
Defined.

(** X2.  Under either interpreter a value above [10^3] and below [2^52]
    is shown as a whole number of at least 1 followed by K, M, G or T,
    and up to [10^12] that number is at most 1000: the text is never
    longer than "1000" and a letter, and "1000K", "1000M", "1000G" do
    occur just below the next threshold. *)
Theorem Value_str_magnitude (py : python) (n : Z)
    (Hlo : 10 ^ 3 < n) (Hhi : n < 2 ^ 52) :
  ∃ q suffix,
    Value.str py n = Ok (Py.str q +:+ suffix)
    ∧ suffix ∈ ["K"; "M"; "G"; "T"]
    ∧ 1 ≤ q
    ∧ (n ≤ 10 ^ 12 → q ≤ 1000).
Proof.
  destruct (Value_str_cases py n Hlo) as (d & suffix & Heq & Hd & Hin & Hup).
  assert (0 < d) as Hpos.
  { repeat (apply elem_of_cons in Hin as [[= -> ->]|Hin]; [lia|]).
    by apply not_elem_of_nil in Hin. }
  eexists _, suffix. split; [apply (Value_str_branch py n d); [done|lia..]|].
  split.
  { repeat (apply elem_of_cons in Hin as [[= -> ->]|Hin];
            [set_solver|]).
    by apply not_elem_of_nil in Hin. }
  pose proof (Z.div_mod n d ltac:(lia)) as Hdm.
  pose proof (Z.mod_pos_bound n d Hpos) as Hr.
  assert (1 ≤ n `div` d) by (apply Z.div_le_lower_bound; lia).
  destruct py.
  - split; [done|]. intros Hle. apply Z.div_le_upper_bound; [lia|].
    specialize (Hup Hle). lia.
  - unfold Py.round_half_even.
    split.
    + destruct (_ ?= _); [destruct (Z.even _)|..]; lia.
    + intros Hle. specialize (Hup Hle).
      assert (n `div` d ≤ 1000) by (apply Z.div_le_upper_bound; lia).
      destruct (decide (n `div` d = 1000)) as [Heq1000|Hne].
      * assert (n `mod` d = 0) as -> by nia.
        rewrite Heq1000.
        assert ((2 * 0 ?= d) = Lt) as -> by (apply Z.compare_lt_iff; lia).
        lia.
      * destruct (_ ?= _); [destruct (Z.even _)|..]; lia.
Qed.

Lemma Value_str_magnitude_witness :
  ∃ q suffix,
    Value.str Python3 999999 = Ok (Py.str q +:+ suffix)
    ∧ suffix ∈ ["K"; "M"; "G"; "T"]
    ∧ 1 ≤ q
    ∧ (999999 ≤ 10 ^ 12 → q ≤ 1000).
Proof.
  apply (Value_str_magnitude Python3 999999); lia.
Defined.

Lemma round_half_even_floor (n d : Z) : n `div` d ≤ Py.round_half_even n d.
Proof.
  unfold Py.round_half_even.
  destruct (_ ?= _); [destruct (Z.even _)|..]; lia.
Qed.

Lemma exponent_range (n d : Z) :
  Z.log2 n - Z.log2 d - 53 ≤ Py.exponent n d ≤ Z.log2 n - Z.log2 d - 52.
Proof.
  unfold Py.exponent. destruct (Py.scaled _ _ _) as [a b].
  destruct (_ <? _); lia.
Qed.

(** Beyond the largest double the conversion raises. *)
Lemma to_double_overflow (n d : Z) :
  0 < d → d * 2 ^ 1024 ≤ n → Py.to_double n d = Raise OverflowError.
Proof.
  intros Hd Hn.
  assert (0 < 2 ^ 1024) as Hbig by (by apply Z.pow_pos_nonneg).
  assert (0 < n) as Hn0 by nia.
  pose proof (Z.log2_spec n Hn0) as [Hln _].
  pose proof (Z.log2_spec d Hd) as [Hld Hld'].
  pose proof (Z.log2_nonneg d) as Hld0.
  assert (Z.log2 d + 1024 ≤ Z.log2 n) as Hlog.
  { apply Z.log2_le_pow2; [done|].
    rewrite Z.pow_add_r by lia. nia. }
  pose proof (exponent_range n d) as He.
  unfold Py.to_double.
  set (e := Py.exponent n d) in *.
  set (ln := Z.log2 n) in *. set (ld := Z.log2 d) in *.
  unfold Py.scaled. destruct (Z.leb_spec 0 e) as [He0|]; [|lia]. simpl.
  assert (0 < 2 ^ e) as Hpe by (by apply Z.pow_pos_nonneg).
  set (D := d * 2 ^ e).
  assert (0 < D) as HD by (subst D; nia).
  pose proof (round_half_even_floor n D) as Hm.
  set (m := Py.round_half_even n D) in *.
  assert (2 ^ 1024 ≤ (n `div` D) * 2 ^ e) as Hfloor.
  { destruct (Z.le_gt_cases e 1024) as [Hle|Hgt].
    - assert (2 ^ (1024 - e) ≤ n `div` D) as Hq.
      { apply Z.div_le_lower_bound; [done|].
        subst D. rewrite <- Z.mul_assoc, <- Z.pow_add_r by lia.
        by replace (e + (1024 - e)) with 1024 by lia. }
      replace 1024 with ((1024 - e) + e) at 1 by lia.
      rewrite Z.pow_add_r by lia. nia.
    - assert (1 ≤ n `div` D) as Hq.
      { apply Z.div_le_lower_bound; [done|]. rewrite Z.mul_1_r.
        assert (2 ^ (ld + 1) * 2 ^ e ≤ 2 ^ ln) as Hpow.
        { rewrite <- Z.pow_add_r by lia.
          apply Z.pow_le_mono_r; lia. }
        subst D. nia. }
      assert (2 ^ 1024 ≤ 2 ^ e) by (apply Z.pow_le_mono_r; lia).
      nia. }
  destruct (Z.leb_spec (2 ^ 1024) (m * 2 ^ e)) as [|Hlt]; [done|].
  exfalso. nia.
Qed.

(** X3.  Run by Python 3, whose integers have no limit, the cell of a
    value beyond the largest double cannot be made: from [10^12 * 2^1024]
    on, [Value.__str__] raises [OverflowError], from the division. *)
Theorem Value_str_overflows (n : Z) (Hn : 10 ^ 12 * 2 ^ 1024 ≤ n) :
  Value.str Python3 n = Raise OverflowError.
Proof.
  assert (0 < 2 ^ 1024) as Hbig by (by apply Z.pow_pos_nonneg).
  assert (10 ^ 12 < n) as Hlt by nia.
  unfold Value.str. destruct (Z.ltb_spec (10 ^ 12) n); [|lia].
  unfold Value.with_suffix, Py.div_round.
  rewrite to_double_overflow; [done|done|lia].
Qed.

Lemma Value_str_overflows_witness :
  Value.str Python3 (10 ^ 12 * 2 ^ 1024) = Raise OverflowError
  ∧ Value.str Python3 (10 ^ 12 * 2 ^ 1024 + 1) = Raise OverflowError.
Proof.
  split; apply Value_str_overflows; lia.
Defined.

(** ** More on ListPrinter.reset *)

Section more_sorting.
Context {A K : Type} (lt : K → K → bool) (key : A → K) `{!KeyOrder lt}.

Lemma insert_by_filter (k : K) (x : A) (l : list A) :
  List.filter (λ z, same_key lt (key z) k) (Py.insert_by lt key x l)
  = List.filter (λ z, same_key lt (key z) k) (x :: l).
Proof.
  induction l as [|y l IH]; [done|].
  cbn [Py.insert_by]. destruct (lt (key y) (key x)) eqn:Hyx; [|done].
  cbn [List.filter] in *. rewrite IH.
  destruct (same_key lt (key x) k) eqn:Hx;
    destruct (same_key lt (key y) k) eqn:Hy; try done.
  exfalso. unfold same_key in *.
  apply andb_true_iff in Hx as [_ Hx], Hy as [Hy _].
  apply negb_true_iff in Hx, Hy.
  pose proof (lt_cotrans (lt := lt) (key x) k (key y) Hx Hy). congruence.
Qed.

Lemma stable_sort_filter (k : K) (l : list A) :
  List.filter (λ z, same_key lt (key z) k) (Py.stable_sort lt key l)
  = List.filter (λ z, same_key lt (key z) k) l.
Proof.
  induction l as [|x l IH]; [done|].
  cbn [Py.stable_sort foldr]. rewrite insert_by_filter.
  cbn [List.filter]. unfold Py.stable_sort in IH. by rewrite IH.
Qed.

Lemma filter_rev' (f : A → bool) (l : list A) :
  List.filter f (List.rev l) = List.rev (List.filter f l).
Proof.
  induction l as [|x l IH]; [done|]. simpl.
  rewrite List.filter_app, IH. simpl.
  destruct (f x); simpl; [done|by rewrite app_nil_r].
Qed.

(** Sorting never reorders rows with equal keys, in either direction. *)
Lemma sorted_filter (k : K) (l : list A) (reverse : bool) :
  List.filter (λ z, same_key lt (key z) k) (Py.sorted lt key l reverse)
  = List.filter (λ z, same_key lt (key z) k) l.
Proof.
  unfold Py.sorted. destruct reverse; [|apply stable_sort_filter].
  by rewrite filter_rev', stable_sort_filter, filter_rev', rev_involutive.
Qed.

Lemma insert_by_head (x : A) (l : list A) :
  Forall (ascending lt key x) l → Py.insert_by lt key x l = x :: l.
Proof.
  destruct 1 as [|y l Hxy _]; [done|].
  cbn [Py.insert_by]. unfold ascending in Hxy. by rewrite Hxy.
Qed.

Lemma stable_sort_id (l : list A) :
  StronglySorted (ascending lt key) l → Py.stable_sort lt key l = l.
Proof.
  induction 1 as [|x l Hl IH Hx]; [done|].
  cbn [Py.stable_sort foldr]. unfold Py.stable_sort in IH. rewrite IH.
  by apply insert_by_head.
Qed.

(** A list already in the order asked for is left as it is. *)
Lemma sorted_id (l : list A) (reverse : bool) :
  StronglySorted (if reverse then descending lt key else ascending lt key) l →
  Py.sorted lt key l reverse = l.
Proof.
  unfold Py.sorted. destruct reverse; [|apply stable_sort_id].
  intros Hs. rewrite stable_sort_id; [apply rev_involutive|].
  by apply (StronglySorted_rev (descending lt key)) in Hs.
Qed.
End more_sorting.

Section more_reset.
Context {P Σ K : Type} {printable : Printable P Σ K}.
Context `{!KeyOrder (key_lt (Printable := printable))}.

(** X4.  Ties keep the order of submission: among the records whose keys
    [<] does not tell apart, the generation holds the earliest submitted
    ones, in the order they were submitted. *)
Theorem reset_is_stable (self : ListPrinter.t P) (submitted : list P)
    (k : K) :
  tied k (ListPrinter.kept self submitted) `prefix_of` tied k submitted.
Proof.
  destruct (reset_table_kept self submitted) as [n [= ->]].
  unfold tied.
  rewrite <- (sorted_filter key_lt sortOrder k submitted
                (ListPrinter.descendingOrder self)).
  set (ranked := Py.sorted _ _ _ _).
  rewrite <- (take_drop n ranked) at 2.
  rewrite List.filter_app. by apply prefix_app_r.
Qed.

(** X5.  Without a maximum ([None], or 0, which the guard takes for
    none) [reset] keeps every submitted record, sorted; with a negative
    maximum [-k] the slice drops the [k] records that rank last. *)
Theorem reset_without_maximum (self : ListPrinter.t P)
    (submitted : list P) :
  let ranked := Py.sorted key_lt sortOrder submitted
                          (ListPrinter.descendingOrder self) in
  (ListPrinter.maxLine self = None ∨ ListPrinter.maxLine self = Some 0 →
   ListPrinter.kept self submitted = ranked
   ∧ ListPrinter.kept self submitted ≡ₚ submitted
   ∧ StronglySorted (ranks_before (ListPrinter.descendingOrder self))
                    (ListPrinter.kept self submitted))
  ∧ (∀ k, (0 < k)%nat →
       ListPrinter.maxLine self = Some (- Z.of_nat k) →
       ListPrinter.kept self submitted = take (length submitted - k) ranked
       ∧ length (ListPrinter.kept self submitted)
         = (length submitted - k)%nat).
Proof.
  intros ranked. split.
  - intros Hmax.
    assert (ListPrinter.kept self submitted = ranked) as Heq.
    { unfold ListPrinter.kept. by destruct Hmax as [-> | ->]. }
    split; [done|]. rewrite Heq. split; [apply sorted_perm|].
    apply ranks_before_sorted.
  - intros k Hk Hmax.
    assert (length ranked = length submitted) as Hlen.
    { apply Permutation_length, sorted_perm. }
    assert (ListPrinter.kept self submitted
            = take (length submitted - k) ranked) as Heq.
    { unfold ListPrinter.kept. rewrite Hmax. simpl.
      destruct (Z.eqb_spec (- Z.of_nat k) 0); [lia|]. simpl.
      unfold Py.slice_to. destruct (Z.leb_spec 0 (- Z.of_nat k)); [lia|].
      fold ranked. rewrite Hlen. f_equal. lia. }
    split; [done|]. rewrite Heq, length_take, Hlen. lia.
Qed.

(** X6.  Submitting the current generation again changes nothing, as long
    as the maximum is not negative: the rows are already in order and
    already few enough. *)
Theorem reset_of_generation (st : ListPrinter.state P Σ)
    (submitted : list P)
    (Hmax : ∀ maxRows, ListPrinter.maxLine (ListPrinter.table st)
                       = Some maxRows → 0 ≤ maxRows) :
  let st1 := (ListPrinter.reset submitted st).1 in
  ∃ rows, ListPrinter.printables (ListPrinter.table st1) = Some rows
    ∧ (ListPrinter.reset rows st1).1 = st1.
Proof.
  intros st1. subst st1. rewrite reset_spec. simpl.
  set (self := ListPrinter.table st).
  exists (ListPrinter.kept self submitted). split; [done|].
  rewrite reset_spec. simpl. f_equal.
  unfold ListPrinter.reset_table. simpl. f_equal. f_equal.
  destruct (reset_table_kept self submitted) as [n [= Hn]].
  assert (Py.sorted key_lt sortOrder (ListPrinter.kept self submitted)
            (ListPrinter.descendingOrder self)
          = ListPrinter.kept self submitted) as Hid.
  { apply sorted_id. rewrite Hn.
    pose proof (sorted_sorted key_lt sortOrder submitted
                  (ListPrinter.descendingOrder self)) as Hs.
    rewrite <- (take_drop n (Py.sorted _ _ _ _)) in Hs.
    by apply StronglySorted_app_1_l in Hs. }
  unfold ListPrinter.kept at 1. simpl. rewrite Hid.
  destruct (ListPrinter.maxLine self) as [maxRows|] eqn:Hm; [|done].
  simpl. destruct (Z.eqb_spec maxRows 0); [done|]. simpl.
  specialize (Hmax maxRows Hm).
  unfold Py.slice_to. destruct (Z.leb_spec 0 maxRows); [|lia].
  apply take_ge.
  unfold ListPrinter.kept. fold self. rewrite Hm. simpl.
  destruct (Z.eqb_spec maxRows 0); [done|]. simpl.
  unfold Py.slice_to. destruct (Z.leb_spec 0 maxRows); [|lia].
  rewrite length_take. lia.
Qed.
End more_reset.

Lemma reset_is_stable_witness :
  let first := Queried (Query.init srv1 101 "shop.orders" "{}" (Some 12)) in
  let second := Queried (Query.init srv2 303 "shop.items" "{}" (Some 12)) in
  let third := Queried (Query.init srv2 404 "shop.carts" "{}" (Some 12)) in
  let self := ListPrinter.init ["Server"; "OpId"] true (Some 2) in
  let submitted := [first; op202; second; third] in
  tied (Σ := ()) 12 (ListPrinter.kept (Σ := ()) self submitted)
  = [first; second]
  ∧ tied (Σ := ()) 12 submitted = [first; second; third]
  ∧ tied (Σ := ()) 12 (ListPrinter.kept (Σ := ()) self submitted)
    `prefix_of` tied (Σ := ()) 12 submitted.
Proof.
  intros first second third self submitted.
  split; [reflexivity|]. split; [reflexivity|].
  apply (reset_is_stable (Σ := ()) self submitted 12).
Defined.

Lemma reset_without_maximum_witness :
  ListPrinter.kept (Σ := ())
    (ListPrinter.init ["Server"; "OpId"] true (Some (-1))) [op7; op101; op202]
  = [op101; op202].
Proof.
  destruct (reset_without_maximum (Σ := ())
              (ListPrinter.init ["Server"; "OpId"] true (Some (-1)))
              [op7; op101; op202]) as [_ Hneg].
  destruct (Hneg 1%nat) as [-> _]; [lia|reflexivity|reflexivity].
Defined.

Lemma reset_of_generation_witness :
  ∃ rows,
    ListPrinter.printables (ListPrinter.table operations_shown) = Some rows
    ∧ (ListPrinter.reset rows operations_shown).1 = operations_shown.
Proof.
  apply (reset_of_generation (Σ := ())
           (ListPrinter.State Query_listPrinter () "") [op101; op202]).
  intros maxRows [= <-]. lia.
Defined.

(** ** Strings *)

Lemma string_app_cons (c : ascii) (s1 s2 : string) :
  String c s1 +:+ s2 = String c (s1 +:+ s2).
Proof. reflexivity. Qed.

Lemma string_app_nil_r (s : string) : s +:+ "" = s.
Proof.
  induction s as [|c s IH]; [done|]. by rewrite string_app_cons, IH.
Qed.

Lemma string_app_assoc (s1 s2 s3 : string) :
  s1 +:+ (s2 +:+ s3) = (s1 +:+ s2) +:+ s3.
Proof.
  induction s1 as [|c s1 IH]; [done|]. by rewrite !string_app_cons, IH.
Qed.




(** ** What the methods leave alone *)

Section frames.
Context {P Σ K : Type} {printable : Printable P Σ K}.

Global Instance same_settings_preorder : PreOrder (@same_settings P Σ).
Proof.
  split.
  - by intros st.
  - intros st1 st2 st3 (?&?&?&?) (?&?&?&?). unfold same_settings.
    repeat split; congruence.
Qed.

Global Instance output_extends_preorder : PreOrder (@output_extends P Σ).
Proof.
  split.
  - intros st. exists "". by rewrite string_app_nil_r.
  - intros st1 st2 st3 [m1 H1] [m2 H2]. exists (m1 +:+ m2).
    by rewrite H2, H1, string_app_assoc.
Qed.

Global Instance same_generation_preorder : PreOrder (@same_generation P Σ).
Proof.
  split; [by intros st|].
  intros st1 st2 st3 ??. unfold same_generation in *. congruence.
Qed.

Global Instance only_objects_touched_preorder :
  PreOrder (@only_objects_touched P Σ).
Proof.
  split; [by intros st|].
  intros st1 st2 st3 [??] [??]. split; congruence.
Qed.

Global Instance only_table_touched_preorder :
  PreOrder (@only_table_touched P Σ).
Proof.
  split; [by intros st|].
  intros st1 st2 st3 [??] [??]. split; congruence.
Qed.

(** One step of a method: what it is built from. *)
Ltac primitive :=
  let st := fresh "st" in
  intros st;
  unfold ListPrinter.print, ListPrinter.get_width, ListPrinter.set_width,
    ListPrinter.get_printables, ListPrinter.get_headers,
    ListPrinter.call_line, ListPrinter.assign_printables,
    ListPrinter.assert_Printable, ListPrinter.reset_table,
    lift_result, raise, mret, action_ret;
  repeat case_match; simpl.

Ltac compound prim :=
  repeat first
    [ apply preserves_bind; [apply _| |intros ?]
    | apply preserves_for_each; [apply _|intros ?]
    | progress (unfold ListPrinter.print_cell, ListPrinter.print_header,
                ListPrinter.print_row)
    | case_match
    | prim ].

Lemma reset_settings (submitted : list P) :
  preserves (@same_settings P Σ) (ListPrinter.reset submitted).
Proof. intros st. by rewrite reset_spec. Qed.

Lemma printLines_settings :
  preserves (@same_settings P Σ) ListPrinter.printLines.
Proof.
  unfold ListPrinter.printLines.
  compound ltac:(solve [primitive; unfold same_settings; simpl;
                        rewrite ?length_insert; done]).
Qed.

Lemma scan_preserves (R : relation (ListPrinter.state P Σ)) `{!PreOrder R}
    (rows : list P) (line0 : list string) :
  (∀ row, preserves R (ListPrinter.call_line row)) →
  preserves R (ListPrinter.scan rows line0).
Proof.
  intros Hline. induction rows as [|row rows IH]; simpl.
  - by apply preserves_ret.
  - apply preserves_bind; [done|apply Hline|]. intros cells.
    apply preserves_bind; [done|by apply preserves_lift_result|].
    intros [|]; [done|by apply preserves_ret].
Qed.

Lemma getLine_preserves (R : relation (ListPrinter.state P Σ))
    `{!PreOrder R} (line0 : list string) :
  (∀ row, preserves R (ListPrinter.call_line row)) →
  preserves R (ListPrinter.getLine line0).
Proof.
  intros Hline. unfold ListPrinter.getLine.
  apply preserves_bind; [done| |intros rows; by apply scan_preserves].
  intros st. unfold ListPrinter.get_printables.
  destruct (ListPrinter.printables _); simpl; reflexivity.
Qed.

Lemma printLines_output :
  preserves (@output_extends P Σ) ListPrinter.printLines.
Proof.
  unfold ListPrinter.printLines.
  compound ltac:(solve [primitive; unfold output_extends; simpl;
                        first [by eexists
                              |by exists ""; rewrite string_app_nil_r]]).
Qed.

Lemma perform_settings (c : call P) :
  preserves (@same_settings P Σ) (perform c).
Proof.
  destruct c; simpl.
  - apply reset_settings.
  - apply printLines_settings.
  - apply preserves_bind; [apply _| |intros _; apply preserves_ret; apply _].
    apply getLine_preserves; [apply _|]. intros row. by primitive.
Qed.

Lemma perform_output (c : call P) :
  preserves (@output_extends P Σ) (perform c).
Proof.
  destruct c; simpl.
  - intros st. rewrite reset_spec. exists "". simpl.
    by rewrite string_app_nil_r.
  - apply printLines_output.
  - apply preserves_bind; [apply _| |intros _; apply preserves_ret; apply _].
    apply getLine_preserves; [apply _|]. intros row. primitive.
    exists "". simpl. by rewrite string_app_nil_r.
Qed.

Lemma printLines_generation :
  preserves (@same_generation P Σ) ListPrinter.printLines.
Proof.
  unfold ListPrinter.printLines.
  compound ltac:(solve [primitive; done]).
Qed.

(** X7.  Whatever is called on a table, in whatever order and whether
    the calls return or raise, its headers, its maximum, its direction and
    its number of columns stay what [__init__] made them, and text
    already written is never altered: output is only appended. *)
Theorem settings_never_change (calls : list (call P))
    (st : ListPrinter.state P Σ) :
  same_settings st (lifetime calls st)
  ∧ output_extends st (lifetime calls st).
Proof.
  revert st. induction calls as [|c calls IH]; intros st; simpl.
  - split; reflexivity.
  - destruct (IH (perform c st).1) as [Hs Ho]. split.
    + etrans; [apply perform_settings|exact Hs].
    + etrans; [apply perform_output|exact Ho].
Qed.

(** X8.  Each method touches only what is its own: [getLine] changes
    neither the table nor the output (it can only act through the rows'
    [line]); [printLines] never changes the generation; [reset] writes
    nothing and does not touch the objects behind the rows. *)
Theorem methods_keep_to_their_part (st : ListPrinter.state P Σ)
    (supplied : list string) (submitted : list P) :
  only_objects_touched st (ListPrinter.getLine supplied st).1
  ∧ same_generation st (ListPrinter.printLines st).1
  ∧ only_table_touched st (ListPrinter.reset submitted st).1.
Proof.
  split; [|split].
  - apply getLine_preserves; [apply _|]. intros row. by primitive.
  - revert st. change (preserves (@same_generation P Σ)
                         ListPrinter.printLines).
    unfold ListPrinter.printLines.
    compound ltac:(solve [primitive; done]).
  - by rewrite reset_spec.
Qed.

(** X9.  Before the first [reset] the table has no rows to speak of:
    [getLine] raises [AttributeError] at once, and [printLines] raises it
    after having written the header row, each header followed by two
    spaces. *)
Theorem no_generation_before_reset (columnHeaders : list string)
    (descendingOrder : bool) (maxLine : option Z) (σ : Σ) (out : string)
    (supplied : list string) :
  let st := ListPrinter.State
              (ListPrinter.init columnHeaders descendingOrder maxLine)
              σ out in
  ListPrinter.getLine supplied st = (st, Raise AttributeError)
  ∧ ListPrinter.printLines st
    = (ListPrinter.State
         (ListPrinter.init columnHeaders descendingOrder maxLine) σ
         (out +:+ fresh_header_row columnHeaders +:+ ListPrinter.newline),
       Raise AttributeError).
Proof.
  intros st. split; [done|].
  assert (∀ (before : list string) (headers : list string) (text : string),
            columnHeaders = before ++ headers →
            for_each (imap (λ index x, (length before + index, x)%nat) headers)
                     (λ ih, ListPrinter.print_header (P := P) (Σ := Σ)
                                                     ih.1 ih.2)
                     (ListPrinter.State
                        (ListPrinter.init columnHeaders descendingOrder
                                          maxLine) σ text)
            = (ListPrinter.State
                 (ListPrinter.init columnHeaders descendingOrder maxLine) σ
                 (text +:+ fresh_header_row headers), Ok ())) as Hrow.
  { intros before headers. revert before.
    induction headers as [|header headers IH]; intros before text Heq.
    - simpl. by rewrite string_app_nil_r.
    - rewrite imap_cons. cbn [for_each]. unfold mbind, action_bind at 1.
      unfold ListPrinter.print_header at 1.
      unfold mbind, action_bind, ListPrinter.get_width at 1.
      cbn [ListPrinter.table ListPrinter.columnWidths ListPrinter.init
           fst snd].
      rewrite Heq at 1. rewrite Nat.add_0_r.
      rewrite map_app, lookup_app_r by (by rewrite length_map).
      rewrite length_map, Nat.sub_diag. cbn [map lookup list_lookup].
      unfold ListPrinter.print. cbn [ListPrinter.table ListPrinter.heap
                                     ListPrinter.stdout].
      rewrite (imap_ext _ (λ index x,
                 (length (before ++ [header]) + index, x)%nat));
        [|intros; simpl; rewrite length_app; simpl; f_equal; lia].
      rewrite (IH (before ++ [header])) by (by rewrite <- app_assoc).
      f_equal. f_equal. cbn [fresh_header_row foldr].
      rewrite <- !string_app_assoc. f_equal.
      unfold Py.ljust.
      replace (String.length header + 2 - String.length header)%nat
        with 2%nat by lia.
      simpl. by rewrite <- string_app_assoc. }
  specialize (Hrow [] columnHeaders out eq_refl).
  cbn [length Nat.add] in Hrow.
  subst st.
  unfold ListPrinter.printLines, mbind, action_bind,
    ListPrinter.get_headers, enumerate.
  cbn [ListPrinter.table ListPrinter.columnHeaders ListPrinter.init].
  rewrite Hrow.
  unfold ListPrinter.print, ListPrinter.get_printables. simpl. by rewrite string_app_assoc.
Qed.
End frames.

(** ** The layout of printLines *)

Lemma grow_row_length (widths : list nat) (index : nat)
    (cells : list string) :
  length (grow_row widths index cells) = length widths.
Proof.
  revert widths index. induction cells as [|cell cells IH];
    intros widths index; simpl; [done|].
  by rewrite IH, length_insert.
Qed.


Lemma cell_width_insert (widths : list nat) (i j w : nat) (cell : string) :
  i ≠ j → cell_width (<[i := w]> widths) j cell = cell_width widths j cell.
Proof.
  intros Hne. unfold cell_width. by rewrite list_lookup_insert_ne.
Qed.

Lemma row_text_insert (widths : list nat) (i j w : nat)
    (cells : list string) :
  (i < j)%nat → row_text (<[i := w]> widths) j cells = row_text widths j cells.
Proof.
  revert j. induction cells as [|cell cells IH]; intros j Hij; simpl; [done|].
  rewrite cell_width_insert by lia. by rewrite IH by lia.
Qed.

Lemma grow_row_lookup_lt (widths : list nat) (index i : nat)
    (cells : list string) :
  (i < index)%nat → grow_row widths index cells !! i = widths !! i.
Proof.
  revert widths index. induction cells as [|cell cells IH];
    intros widths index Hi; simpl; [done|].
  rewrite IH by lia. by rewrite list_lookup_insert_ne by lia.
Qed.










Section layout.
Context {P Σ K : Type} {printable : Printable P Σ K}.

Lemma printed_same (st : ListPrinter.state P Σ) :
  printed st (ListPrinter.columnWidths (ListPrinter.table st)) "" = st.
Proof.
  destruct st as [[] ? ?]. unfold printed. simpl.
  by rewrite string_app_nil_r.
Qed.

Lemma printed_printed (st : ListPrinter.state P Σ) (widths1 widths2 : list nat)
    (text1 text2 : string) :
  printed (printed st widths1 text1) widths2 text2
  = printed st widths2 (text1 +:+ text2).
Proof. unfold printed. simpl. by rewrite string_app_assoc. Qed.

(** One cell, as a change of widths and text. *)
Lemma print_cell_result (index : nat) (cell : string)
    (st : ListPrinter.state P Σ) :
  let widths := ListPrinter.columnWidths (ListPrinter.table st) in
  ListPrinter.print_cell index cell st
  = if (index <? length widths)%nat
    then (printed st (<[index := cell_width widths index cell]> widths)
                  (Py.ljust cell (cell_width widths index cell)), Ok ())
    else (st, Raise IndexError).
Proof.
  intros widths. subst widths. destruct st as [self σ out].
  cbn [ListPrinter.table].
  unfold cell_width, printed. cbn [ListPrinter.table ListPrinter.heap
                                   ListPrinter.stdout].
  destruct (ListPrinter.columnWidths self !! index) as [width|] eqn:Hw.
  - pose proof (lookup_lt_Some _ _ _ Hw) as Hlt.
    destruct (Nat.ltb_spec index (length (ListPrinter.columnWidths self)));
      [|lia].
    unfold ListPrinter.print_cell, mbind, action_bind,
      ListPrinter.get_width at 1. simpl. rewrite Hw.
    destruct (Nat.ltb_spec width (String.length cell + 2)) as [Hgrow|Hfit].
    + unfold ListPrinter.set_width, ListPrinter.get_width. simpl.
      destruct (Nat.ltb_spec index (length (ListPrinter.columnWidths self)));
        [|lia]. simpl.
      rewrite list_lookup_insert_eq by done.
      rewrite Nat.max_r by lia. done.
    + unfold ListPrinter.get_width. simpl. rewrite Hw.
      rewrite Nat.max_l by lia. simpl.
      rewrite list_insert_id by done. by destruct self.
  - apply lookup_ge_None in Hw.
    destruct (Nat.ltb_spec index (length (ListPrinter.columnWidths self)));
      [lia|].
    unfold ListPrinter.print_cell, mbind, action_bind,
      ListPrinter.get_width at 1. simpl.
    by rewrite (proj2 (lookup_ge_None _ _) Hw).
Qed.

(** The inner loop of [printLines] over the cells of one row. *)
Lemma print_cells_result (index : nat) (cells : list string)
    (st : ListPrinter.state P Σ) :
  let widths := ListPrinter.columnWidths (ListPrinter.table st) in
  (index + length cells ≤ length widths)%nat →
  for_each (imap (λ i cell, (index + i, cell)%nat) cells)
           (λ ic, ListPrinter.print_cell ic.1 ic.2) st
  = (printed st (grow_row widths index cells) (row_text widths index cells),
     Ok ()).
Proof.
  revert index st. induction cells as [|cell cells IH]; intros index st.
  - intros widths _. simpl. subst widths. by rewrite printed_same.
  - intros widths Hlen. simpl in Hlen.
    rewrite imap_cons. cbn [for_each]. unfold mbind, action_bind at 1.
    cbn [fst snd]. rewrite Nat.add_0_r, print_cell_result. fold widths.
    destruct (Nat.ltb_spec index (length widths)); [|lia].
    rewrite (imap_ext _ (λ i cell0, (S index + i, cell0)%nat));
      [|intros; simpl; f_equal; lia].
    rewrite IH by (simpl; rewrite length_insert; fold widths; lia).
    cbn [printed ListPrinter.table ListPrinter.columnWidths].
    rewrite printed_printed. cbn [grow_row row_text].
    by rewrite row_text_insert by lia.
Qed.

Lemma print_cells_overflow (index : nat) (cells : list string)
    (st : ListPrinter.state P Σ) :
  (index ≤ length (ListPrinter.columnWidths (ListPrinter.table st)))%nat →
  (length (ListPrinter.columnWidths (ListPrinter.table st))
   < index + length cells)%nat →
  (for_each (imap (λ i cell, (index + i, cell)%nat) cells)
            (λ ic, ListPrinter.print_cell ic.1 ic.2) st).2
  = Raise IndexError.
Proof.
  revert index st. induction cells as [|cell cells IH];
    intros index st Hindex Hlen.
  - simpl in Hlen. lia.
  - simpl in Hlen.
    rewrite imap_cons. cbn [for_each]. unfold mbind, action_bind at 1.
    cbn [fst snd]. rewrite Nat.add_0_r, print_cell_result.
    destruct (Nat.ltb_spec index
                (length (ListPrinter.columnWidths (ListPrinter.table st))));
      [|done].
    rewrite (imap_ext _ (λ i cell0, (S index + i, cell0)%nat));
      [|intros; simpl; f_equal; lia].
    apply IH; simpl; rewrite length_insert; lia.
Qed.

(** The header loop. *)
Lemma print_headers_result (index : nat) (headers : list string)
    (st : ListPrinter.state P Σ) :
  let widths := ListPrinter.columnWidths (ListPrinter.table st) in
  (index + length headers ≤ length widths)%nat →
  for_each (imap (λ i header, (index + i, header)%nat) headers)
           (λ ih, ListPrinter.print_header ih.1 ih.2) st
  = (printed st widths (header_text widths index headers), Ok ()).
Proof.
  revert index st. induction headers as [|header headers IH];
    intros index st.
  - intros widths _. simpl. subst widths. by rewrite printed_same.
  - intros widths Hlen. simpl in Hlen.
    rewrite imap_cons. cbn [for_each]. unfold mbind, action_bind at 1.
    cbn [fst snd]. rewrite Nat.add_0_r.
    unfold ListPrinter.print_header at 1, mbind, action_bind,
      ListPrinter.get_width at 1. fold widths.
    destruct (lookup_lt_is_Some_2 widths index ltac:(lia)) as [width Hw].
    rewrite Hw. unfold ListPrinter.print. cbn beta iota.
    rewrite (imap_ext _ (λ i header0, (S index + i, header0)%nat));
      [|intros; simpl; f_equal; lia].
    rewrite IH by (simpl; fold widths; lia).
    cbn [ListPrinter.table ListPrinter.heap ListPrinter.stdout
         ListPrinter.columnWidths header_text]. fold widths.
    rewrite Hw. unfold printed. simpl.
    by rewrite string_app_assoc.
Qed.

Context (cells : P → list string).
Context (line_pure : ∀ row σ, line row σ = (σ, Ok (cells row))).

Lemma print_row_result (row : P) (st : ListPrinter.state P Σ) :
  let widths := ListPrinter.columnWidths (ListPrinter.table st) in
  (length (cells row) ≤ length widths)%nat →
  ListPrinter.print_row row st
  = (printed st (grow_row widths 0 (cells row))
             (row_text widths 0 (cells row) +:+ ListPrinter.newline), Ok ()).
Proof.
  intros widths Hlen. subst widths.
  unfold ListPrinter.print_row, mbind, action_bind.
  rewrite (call_line_pure cells line_pure). unfold enumerate.
  pose proof (print_cells_result 0 (cells row) st ltac:(simpl; lia))
    as Hcells.
  cbn [Nat.add] in Hcells. rewrite Hcells.
  unfold ListPrinter.print. unfold printed. simpl.
  by rewrite string_app_assoc.
Qed.

Lemma print_row_overflow (row : P) (st : ListPrinter.state P Σ) :
  (length (ListPrinter.columnWidths (ListPrinter.table st))
   < length (cells row))%nat →
  (ListPrinter.print_row row st).2 = Raise IndexError.
Proof.
  intros Hlen. unfold ListPrinter.print_row, mbind, action_bind.
  rewrite (call_line_pure cells line_pure). unfold enumerate.
  pose proof (print_cells_overflow 0 (cells row) st ltac:(lia) ltac:(lia))
    as Hover.
  cbn [Nat.add] in Hover.
  destruct (for_each _ _ st) as [st' [[]|e]]; simpl in *; done.
Qed.

(** The loop over the rows: all of them, or an [IndexError] at the first
    row with more cells than there are columns. *)
Lemma print_rows_result (rows : list P) (st : ListPrinter.state P Σ) :
  let widths := ListPrinter.columnWidths (ListPrinter.table st) in
  Forall (λ row, length (cells row) ≤ length widths)%nat rows →
  for_each rows ListPrinter.print_row st
  = (printed st (grow_rows widths (cells <$> rows))
             (rows_text widths (cells <$> rows)), Ok ()).
Proof.
  revert st. induction rows as [|row rows IH]; intros st widths Hall;
    subst widths.
  - simpl. by rewrite printed_same.
  - apply Forall_cons in Hall as [Hrow Hrows].
    cbn [for_each]. unfold mbind, action_bind at 1.
    rewrite print_row_result by done.
    rewrite IH.
    + cbn [printed ListPrinter.table ListPrinter.columnWidths].
      rewrite printed_printed. cbn [fmap list_fmap grow_rows rows_text].
      by rewrite <- !string_app_assoc.
    + cbn [printed ListPrinter.table ListPrinter.columnWidths].
      by rewrite grow_row_length.
Qed.

Lemma print_rows_overflow (rows : list P) (st : ListPrinter.state P Σ) :
  Exists (λ row, length (ListPrinter.columnWidths (ListPrinter.table st))
                 < length (cells row))%nat rows →
  (for_each rows ListPrinter.print_row st).2 = Raise IndexError.
Proof.
  revert st. induction rows as [|row rows IH]; intros st Hex.
  - by apply Exists_nil in Hex.
  - cbn [for_each]. unfold mbind, action_bind at 1.
    destruct (decide (length (cells row)
                      ≤ length (ListPrinter.columnWidths
                                  (ListPrinter.table st)))%nat) as [Hle|Hgt].
    + rewrite print_row_result by done.
      apply IH. apply Exists_cons in Hex as [Hrow|Hrows]; [lia|].
      cbn [printed ListPrinter.table ListPrinter.columnWidths].
      by rewrite grow_row_length.
    + pose proof (print_row_overflow row st ltac:(lia)) as Hover.
      destruct (ListPrinter.print_row row st) as [st' [[]|e]];
        simpl in *; done.
Qed.

(** [printLines] as a whole, on a table with a generation and as many
    widths as headers. *)
Lemma printLines_result (st : ListPrinter.state P Σ) (rows : list P) :
  let self := ListPrinter.table st in
  let widths := ListPrinter.columnWidths self in
  ListPrinter.printables self = Some rows →
  (length (ListPrinter.columnHeaders self) ≤ length widths)%nat →
  Forall (λ row, length (cells row) ≤ length widths)%nat rows →
  ListPrinter.printLines st
  = (printed st (grow_rows widths (cells <$> rows))
       (header_text widths 0 (ListPrinter.columnHeaders self)
          +:+ ListPrinter.newline +:+ rows_text widths (cells <$> rows)),
     Ok ()).
Proof.
  intros self widths Hrows Hheaders Hall. subst self widths.
  unfold ListPrinter.printLines, mbind, action_bind,
    ListPrinter.get_headers at 1. unfold enumerate.
  pose proof (print_headers_result 0
                (ListPrinter.columnHeaders (ListPrinter.table st)) st
                ltac:(simpl; lia)) as Hhead.
  cbn [Nat.add] in Hhead. rewrite Hhead.
  unfold ListPrinter.print at 1.
  unfold ListPrinter.get_printables.
  cbn [printed ListPrinter.table ListPrinter.printables ListPrinter.heap
       ListPrinter.stdout]. rewrite Hrows.
  rewrite print_rows_result by done.
  unfold printed. simpl.
  by rewrite Hrows, <- !string_app_assoc.
Qed.
End layout.

(** ** The widths after printLines *)

Lemma grow_row_lookup (widths : list nat) (index i : nat)
    (cells : list string) :
  (index + length cells ≤ length widths)%nat →
  grow_row widths index cells !! (index + i)%nat
  = (λ width, match cells !! i with
              | Some cell => (width `max` (String.length cell + 2))%nat
              | None => width
              end) <$> widths !! (index + i)%nat.
Proof.
  revert widths index i. induction cells as [|cell cells IH];
    intros widths index i Hlen; simpl in *.
  - by destruct (widths !! _).
  - destruct i as [|i].
    + rewrite Nat.add_0_r, grow_row_lookup_lt by lia.
      rewrite list_lookup_insert_eq by lia. unfold cell_width. simpl.
      destruct (lookup_lt_is_Some_2 widths index ltac:(lia)) as [width Hw].
      by rewrite Hw.
    + replace (index + S i)%nat with (S index + i)%nat by lia.
      rewrite IH by (rewrite length_insert; lia). simpl.
      by rewrite list_lookup_insert_ne by lia.
Qed.

Lemma grow_rows_lookup (widths : list nat) (i : nat)
    (cellss : list (list string)) :
  Forall (λ cells, length cells ≤ length widths)%nat cellss →
  grow_rows widths cellss !! i
  = (λ width, column_width width i cellss) <$> widths !! i.
Proof.
  revert widths. induction cellss as [|cells cellss IH]; intros widths Hall.
  - simpl. by destruct (widths !! i).
  - apply Forall_cons in Hall as [Hcells Hall]. cbn [grow_rows].
    rewrite IH by (by rewrite grow_row_length).
    pose proof (grow_row_lookup widths 0 i cells ltac:(simpl; lia)) as Hrow.
    cbn [Nat.add] in Hrow. rewrite Hrow.
    destruct (widths !! i); simpl; [|done]. done.
Qed.

Section printed_rows.
Context {P Σ K : Type} {printable : Printable P Σ K}.

Lemma printed_cells_bounded (columns : nat) (rows : list P) (σ : Σ) :
  Forall (λ cells, length cells ≤ columns)%nat
         (printed_cells columns rows σ).1.2.
Proof.
  revert σ. induction rows as [|row rows IH]; intros σ; simpl; [done|].
  destruct (line row σ) as [σ' [cells|e]]; simpl; [|done].
  destruct (Nat.leb_spec (length cells) columns).
  - specialize (IH σ').
    destruct (printed_cells columns rows σ') as [[σ'' cellss] r]. simpl in *.
    by constructor.
  - simpl. constructor; [|done]. rewrite length_take. lia.
Qed.

(** The inner loop on a row with more cells than there are columns left:
    the cells that have a column are printed, then [IndexError]. *)
Lemma print_cells_partial (index : nat) (cells : list string)
    (st : ListPrinter.state P Σ) :
  let widths := ListPrinter.columnWidths (ListPrinter.table st) in
  (index ≤ length widths)%nat →
  (length widths < index + length cells)%nat →
  for_each (imap (λ i cell, (index + i, cell)%nat) cells)
           (λ ic, ListPrinter.print_cell ic.1 ic.2) st
  = (printed st
       (grow_row widths index (take (length widths - index) cells))
       (row_text widths index (take (length widths - index) cells)),
     Raise IndexError).
Proof.
  revert index st. induction cells as [|cell cells IH];
    intros index st widths Hindex Hlen; simpl in Hlen; [lia|].
  rewrite imap_cons. cbn [for_each]. unfold mbind, action_bind at 1.
  cbn [fst snd]. rewrite Nat.add_0_r, print_cell_result. fold widths.
  destruct (Nat.ltb_spec index (length widths)) as [Hlt|Hge].
  - rewrite (imap_ext _ (λ i cell0, (S index + i, cell0)%nat));
      [|intros; simpl; f_equal; lia].
    rewrite IH;
      [|cbn [printed ListPrinter.table ListPrinter.columnWidths];
        rewrite length_insert; fold widths; lia..].
    cbn [printed ListPrinter.table ListPrinter.columnWidths].
    rewrite printed_printed, length_insert. fold widths.
    replace (length widths - index)%nat
      with (S (length widths - S index)) by lia.
    cbn [take firstn grow_row row_text].
    by rewrite row_text_insert by lia.
  - replace (length widths - index)%nat with 0%nat by lia.
    simpl. subst widths. by rewrite printed_same.
Qed.

(** One row, whatever its [line] does. *)
Lemma print_row_general (row : P) (st : ListPrinter.state P Σ) :
  let widths := ListPrinter.columnWidths (ListPrinter.table st) in
  ListPrinter.print_row row st
  = match line row (ListPrinter.heap st) with
    | (σ', Raise e) =>
        (ListPrinter.State (ListPrinter.table st) σ' (ListPrinter.stdout st),
         Raise e)
    | (σ', Ok cells) =>
        let st1 := ListPrinter.State (ListPrinter.table st) σ'
                                     (ListPrinter.stdout st) in
        if (length cells <=? length widths)%nat
        then (printed st1 (grow_row widths 0 cells)
                (row_text widths 0 cells +:+ ListPrinter.newline), Ok ())
        else (printed st1
                (grow_row widths 0 (take (length widths) cells))
                (row_text widths 0 (take (length widths) cells)),
              Raise IndexError)
    end.
Proof.
  intros widths. subst widths.
  unfold ListPrinter.print_row, mbind, action_bind.
  unfold ListPrinter.call_line at 1.
  destruct (line row (ListPrinter.heap st)) as [σ' [cells|e]]; [|done].
  set (st1 := ListPrinter.State (ListPrinter.table st) σ'
                                (ListPrinter.stdout st)).
  unfold enumerate.
  destruct (Nat.leb_spec (length cells)
              (length (ListPrinter.columnWidths (ListPrinter.table st))))
    as [Hle|Hgt].
  - pose proof (print_cells_result 0 cells st1 ltac:(simpl; lia)) as Hcells.
    cbn [Nat.add] in Hcells. rewrite Hcells.
    unfold ListPrinter.print. unfold printed. simpl.
    by rewrite string_app_assoc.
  - pose proof (print_cells_partial 0 cells st1 ltac:(simpl; lia)
                  ltac:(simpl; lia)) as Hcells.
    cbn [Nat.add] in Hcells. rewrite Hcells.
    by rewrite Nat.sub_0_r.
Qed.

(** The loop over the rows, whatever their [line] does. *)
Lemma print_rows_general (rows : list P) (st : ListPrinter.state P Σ)
    (σ' : Σ) (cellss : list (list string)) (r : result ()) :
  let widths := ListPrinter.columnWidths (ListPrinter.table st) in
  printed_cells (length widths) rows (ListPrinter.heap st) = (σ', cellss, r) →
  ∃ text,
    for_each rows ListPrinter.print_row st
    = (ListPrinter.State
         (ListPrinter.Make
            (ListPrinter.columnHeaders (ListPrinter.table st))
            (grow_rows widths cellss)
            (ListPrinter.maxLine (ListPrinter.table st))
            (ListPrinter.descendingOrder (ListPrinter.table st))
            (ListPrinter.printables (ListPrinter.table st)))
         σ' (ListPrinter.stdout st +:+ text), r)
    ∧ (r = Ok () → text = rows_text widths cellss).
Proof.
  revert st σ' cellss r. induction rows as [|row rows IH];
    intros st σ' cellss r widths Hshown; subst widths.
  - simpl in Hshown. injection Hshown as <- <- <-. exists "". split; [|done].
    simpl. rewrite string_app_nil_r. by destruct st as [[] ? ?].
  - cbn [printed_cells] in Hshown. cbn [for_each].
    unfold mbind, action_bind at 1. rewrite print_row_general.
    destruct (line row (ListPrinter.heap st)) as [σ1 [cells|e]].
    + cbn zeta.
      destruct (Nat.leb_spec (length cells)
                  (length (ListPrinter.columnWidths (ListPrinter.table st))))
        as [Hle|Hgt].
      * destruct (printed_cells _ rows σ1) as [[σ2 cellss2] r2] eqn:Hrest.
        injection Hshown as <- <- <-.
        edestruct (IH (printed
                         (ListPrinter.State (ListPrinter.table st) σ1
                                            (ListPrinter.stdout st))
                         (grow_row
                            (ListPrinter.columnWidths (ListPrinter.table st))
                            0 cells)
                         (row_text
                            (ListPrinter.columnWidths (ListPrinter.table st))
                            0 cells +:+ ListPrinter.newline)))
          as (text & Hrun & Htext).
        { cbn [printed ListPrinter.table ListPrinter.columnWidths
               ListPrinter.heap]. rewrite grow_row_length. exact Hrest. }
        rewrite Hrun.
        exists ((row_text (ListPrinter.columnWidths (ListPrinter.table st))
                          0 cells +:+ ListPrinter.newline) +:+ text).
        split.
        -- cbn [printed ListPrinter.table ListPrinter.columnWidths
                ListPrinter.heap ListPrinter.stdout
                ListPrinter.columnHeaders ListPrinter.maxLine
                ListPrinter.descendingOrder ListPrinter.printables
                grow_rows].
           by rewrite !string_app_assoc.
        -- intros Hr. rewrite (Htext Hr).
           cbn [printed ListPrinter.table ListPrinter.columnWidths
                rows_text].
           by rewrite !string_app_assoc.
      * injection Hshown as <- <- <-.
        exists (row_text (ListPrinter.columnWidths (ListPrinter.table st)) 0
                  (take (length (ListPrinter.columnWidths
                                   (ListPrinter.table st))) cells)).
        split; [|intros [=]]. unfold printed. reflexivity.
    + injection Hshown as <- <- <-. exists "". split; [|intros [=]].
      simpl. rewrite string_app_nil_r. by destruct st as [[] ? ?].
Qed.

(** [printLines] as a whole, whatever the rows' [line] does. *)
Lemma printLines_general (st : ListPrinter.state P Σ) (rows : list P)
    (σ' : Σ) (cellss : list (list string)) (r : result ()) :
  let self := ListPrinter.table st in
  let widths := ListPrinter.columnWidths self in
  ListPrinter.printables self = Some rows →
  (length (ListPrinter.columnHeaders self) ≤ length widths)%nat →
  printed_cells (length widths) rows (ListPrinter.heap st) = (σ', cellss, r) →
  ∃ text,
    ListPrinter.printLines st
    = (ListPrinter.State
         (ListPrinter.Make (ListPrinter.columnHeaders self)
                           (grow_rows widths cellss)
                           (ListPrinter.maxLine self)
                           (ListPrinter.descendingOrder self)
                           (ListPrinter.printables self))
         σ'
         (ListPrinter.stdout st
            +:+ header_text widths 0 (ListPrinter.columnHeaders self)
            +:+ ListPrinter.newline +:+ text), r)
    ∧ (r = Ok () → text = rows_text widths cellss).
Proof.
  intros self widths Hrows Hheaders Hshown. subst self widths.
  unfold ListPrinter.printLines, mbind, action_bind,
    ListPrinter.get_headers at 1. unfold enumerate.
  pose proof (print_headers_result 0
                (ListPrinter.columnHeaders (ListPrinter.table st)) st
                ltac:(simpl; lia)) as Hhead.
  cbn [Nat.add] in Hhead. rewrite Hhead.
  unfold ListPrinter.print at 1.
  unfold ListPrinter.get_printables.
  cbn [printed ListPrinter.table ListPrinter.printables ListPrinter.heap
       ListPrinter.stdout]. rewrite Hrows.
  edestruct (print_rows_general rows) as (text & Hrun & Htext);
    [|rewrite Hrun; exists text; split; [|exact Htext]].
  { cbn [ListPrinter.table ListPrinter.columnWidths ListPrinter.heap].
    exact Hshown. }
  cbn [printed ListPrinter.table ListPrinter.columnWidths ListPrinter.heap
       ListPrinter.stdout ListPrinter.columnHeaders ListPrinter.maxLine
       ListPrinter.descendingOrder ListPrinter.printables].
  by rewrite !string_app_assoc.
Qed.
End printed_rows.

Section widths_rule.
Context {P Σ K : Type} {printable : Printable P Σ K}.

(** When the loop ends normally every row was printed, with the cells
    its [line] returned. *)
Lemma printed_cells_complete (columns : nat) (rows : list P) (σ σ' : Σ)
    (cellss : list (list string)) :
  printed_cells columns rows σ = (σ', cellss, Ok ()) →
  Forall2 (λ row cells, ∃ σ1 σ2, line row σ1 = (σ2, Ok cells)) rows cellss.
Proof.
  revert σ σ' cellss. induction rows as [|row rows IH];
    intros σ σ' cellss Hshown; simpl in Hshown.
  - injection Hshown as <- <-. constructor.
  - destruct (line row σ) as [σ1 [cells|e]] eqn:Hline; [|done].
    destruct (length cells <=? columns)%nat; [|done].
    destruct (printed_cells columns rows σ1) as [[σ2 cellss2] r2] eqn:Hrest.
    injection Hshown as <- <- ->.
    constructor; [by eauto|by eapply IH].
Qed.

(** C5.  The widths start at the header lengths plus 2; over any
    succession of calls on the table no width ever decreases; printing a
    cell sets its column to the larger of the current width and the
    cell's length plus 2 (so a cell wider than the column grows it to the
    cell's length plus padding) and pads the cell to that width, and in
    every later state that column is at least as wide.  And [printLines]
    on a table with a generation does this for every cell it prints: it
    ends as the rows' [line] and their numbers of cells make it end, and
    leaves each column at the largest of its width before and the length
    plus 2 of each cell printed in it; when it returns, every row was
    printed with the cells its [line] returned, each cell padded to the
    width its column had grown to by then, after the headers padded to
    the widths the print started with; and whatever is called later, no
    column is narrower than the print left it. *)
Theorem columnWidths_only_grow (columnHeaders : list string)
    (descendingOrder : bool) (maxLine : option Z)
    (st : ListPrinter.state P Σ) (calls : list (call P))
    (index : nat) (cell : string) :
  ListPrinter.columnWidths
    (ListPrinter.init (P := P) columnHeaders descendingOrder maxLine)
    = map (λ columnHeader, String.length columnHeader + 2)%nat columnHeaders
  ∧ widths_grow st (lifetime calls st)
  ∧ match ListPrinter.columnWidths (ListPrinter.table st) !! index with
    | Some width =>
        let width' := (width `max` (String.length cell + 2))%nat in
        ∃ st', ListPrinter.print_cell index cell st = (st', Ok ())
          ∧ ListPrinter.columnWidths (ListPrinter.table st') !! index
            = Some width'
          ∧ ((width < String.length cell)%nat →
             width' = (String.length cell + 2)%nat)
          ∧ ListPrinter.stdout st'
            = ListPrinter.stdout st +:+ Py.ljust cell width'
          ∧ ∃ later,
              ListPrinter.columnWidths
                (ListPrinter.table (lifetime calls st')) !! index
              = Some later
              ∧ (width' ≤ later)%nat
    | None => ListPrinter.print_cell index cell st = (st, Raise IndexError)
    end
  ∧ ∀ (rows : list P) (σ' : Σ) (cellss : list (list string))
      (r : result ()),
      let self := ListPrinter.table st in
      let widths := ListPrinter.columnWidths self in
      ListPrinter.printables self = Some rows →
      (length (ListPrinter.columnHeaders self) ≤ length widths)%nat →
      printed_cells (length widths) rows (ListPrinter.heap st)
      = (σ', cellss, r) →
      ∃ st',
        ListPrinter.printLines st = (st', r)
        ∧ ListPrinter.heap st' = σ'
        ∧ ListPrinter.columnWidths (ListPrinter.table st')
          = grow_rows widths cellss
        ∧ (∀ i width, widths !! i = Some width →
             ListPrinter.columnWidths (ListPrinter.table st') !! i
             = Some (column_width width i cellss))
        ∧ (r = Ok () →
           Forall2 (λ row cells, ∃ σ1 σ2, line row σ1 = (σ2, Ok cells))
                   rows cellss
           ∧ ListPrinter.stdout st'
             = ListPrinter.stdout st
                 +:+ header_text widths 0 (ListPrinter.columnHeaders self)
                 +:+ ListPrinter.newline +:+ rows_text widths cellss)
        ∧ widths_grow st' (lifetime calls st').
Proof.
  split; [done|]. split; [apply lifetime_grows|]. split.
  - pose proof (print_cell_spec index cell st) as Hspec.
    destruct (ListPrinter.columnWidths (ListPrinter.table st) !! index)
      as [width|] eqn:Hw; [|done].
    destruct Hspec as (st' & Hrun & Hwidths & Hout & _).
    exists st'. split; [done|].
    assert (ListPrinter.columnWidths (ListPrinter.table st') !! index
            = Some (width `max` (String.length cell + 2))%nat) as Hnew.
    { rewrite Hwidths. apply list_lookup_insert_eq.
      by eapply lookup_lt_Some. }
    split; [done|]. split; [lia|]. split; [done|].
    pose proof (lifetime_grows calls st') as Hgrow.
    unfold widths_grow in Hgrow.
    destruct (Forall2_lookup_l _ _ _ _ _ Hgrow Hnew)
      as (later & Hlater & Hle).
    eauto.
  - intros rows σ' cellss r self widths Hrows Hheaders Hshown.
    destruct (printLines_general st rows σ' cellss r Hrows Hheaders Hshown)
      as (text & Hrun & Htext).
    eexists. split; [exact Hrun|]. split; [done|]. split; [done|].
    split; [|split; [|apply lifetime_grows]].
    + intros i width Hi. cbn [ListPrinter.table ListPrinter.columnWidths].
      rewrite grow_rows_lookup.
      * fold self widths. by rewrite Hi.
      * pose proof (printed_cells_bounded (length widths) rows
                      (ListPrinter.heap st)) as Hbound.
        by rewrite Hshown in Hbound.
    + intros ->. split; [by eapply printed_cells_complete|].
      cbn [ListPrinter.stdout]. by rewrite (Htext eq_refl).
Qed.
End widths_rule.

Lemma columnWidths_only_grow_witness :
  (∃ st', ListPrinter.print_cell 1 "1234567" operations_shown = (st', Ok ())
     ∧ ListPrinter.columnWidths (ListPrinter.table st') !! 1%nat = Some 9%nat
     ∧ ListPrinter.stdout st' = "1234567  ")
  ∧ ∃ st', ListPrinter.printLines operations_shown = (st', Ok ())
      ∧ ListPrinter.columnWidths (ListPrinter.table operations_shown)
        = [8; 6; 11; 5; 7]%nat
      ∧ ListPrinter.columnWidths (ListPrinter.table st')
        = [8; 6; 13; 6; 7]%nat
      ∧ ListPrinter.columnWidths (ListPrinter.table st') !! 2%nat
        = Some (column_width 11 2 [operation_line op101;
                                   operation_line op202])
      ∧ widths_grow st' (lifetime [PrintLines; GetLine ["srv1"]] st').
Proof.
  pose proof (columnWidths_only_grow (Σ := ())
                ["Server"; "OpId"; "Namespace"; "Sec"; "Query"] true (Some 30)
                operations_shown [PrintLines; GetLine ["srv1"]] 1 "1234567")
    as (_ & _ & Hcell & Hprint).
  split.
  - destruct Hcell as (st' & Hrun & Hwidth & _ & Hout & _).
    exists st'. split; [exact Hrun|]. split; [exact Hwidth|exact Hout].
  - destruct (Hprint [op101; op202] ()
                [operation_line op101; operation_line op202] (Ok ()))
      as (st' & Hrun & _ & Hwidths & Hcolumn & _ & Hlater).
    + reflexivity.
    + vm_compute. lia.
    + reflexivity.
    + exists st'. split; [exact Hrun|]. split; [reflexivity|].
      split; [exact Hwidths|]. split; [|exact Hlater].
      apply Hcolumn. reflexivity.
Defined.

Section printing.
Context {P Σ K : Type} {printable : Printable P Σ K}.
Context (cells : P → list string).
Context (line_pure : ∀ row σ, line row σ = (σ, Ok (cells row))).

Lemma printLines_overflow (st : ListPrinter.state P Σ) (rows : list P) :
  ListPrinter.printables (ListPrinter.table st) = Some rows →
  (length (ListPrinter.columnHeaders (ListPrinter.table st))
   ≤ length (ListPrinter.columnWidths (ListPrinter.table st)))%nat →
  Exists (λ row, length (ListPrinter.columnWidths (ListPrinter.table st))
                 < length (cells row))%nat rows →
  (ListPrinter.printLines st).2 = Raise IndexError.
Proof.
  intros Hrows Hheaders Hex.
  unfold ListPrinter.printLines, mbind, action_bind,
    ListPrinter.get_headers at 1. unfold enumerate.
  pose proof (print_headers_result 0
                (ListPrinter.columnHeaders (ListPrinter.table st)) st
                ltac:(simpl; lia)) as Hhead.
  cbn [Nat.add] in Hhead. rewrite Hhead.
  unfold ListPrinter.print at 1. unfold ListPrinter.get_printables.
  cbn [printed ListPrinter.table ListPrinter.printables ListPrinter.heap
       ListPrinter.stdout]. rewrite Hrows.
  by apply (print_rows_overflow cells line_pure).
Qed.

(** X10.  [printLines] checks no arity either, but needs a column for
    every cell: on a table with a generation and its widths in place, it
    returns normally when no row renders more cells than there are
    columns, and raises [IndexError] as soon as one does; rows with fewer
    cells are printed as they are. *)
Theorem printLines_needs_a_column_per_cell (st : ListPrinter.state P Σ)
    (rows : list P)
    (Hrows : ListPrinter.printables (ListPrinter.table st) = Some rows)
    (Hheaders :
       (length (ListPrinter.columnHeaders (ListPrinter.table st))
        ≤ length (ListPrinter.columnWidths (ListPrinter.table st)))%nat) :
  let columns := length (ListPrinter.columnWidths (ListPrinter.table st)) in
  (Forall (λ row, length (cells row) ≤ columns)%nat rows →
   (ListPrinter.printLines st).2 = Ok ())
  ∧ (Exists (λ row, columns < length (cells row))%nat rows →
     (ListPrinter.printLines st).2 = Raise IndexError).
Proof.
  intros columns. split.
  - intros Hall. by rewrite (printLines_result cells line_pure st rows).
  - by apply printLines_overflow.
Qed.




End printing.

Lemma operation_line_pure {Σ : Type} (row : operation) (σ : Σ) :
  line row σ = (σ, Ok (operation_line row)).
Proof. reflexivity. Qed.

Lemma printLines_needs_a_column_per_cell_witness :
  (ListPrinter.printLines operations_shown).2 = Ok ()
  ∧ (ListPrinter.printLines
       (ListPrinter.State
          (ListPrinter.Make ["Server"; "OpId"] [8; 6]%nat None true
                            (Some [op7; op101])) () "")).2
    = Raise IndexError.
Proof.
  split.
  - apply (printLines_needs_a_column_per_cell (P := operation) (Σ := ())
             (printable := operation_printable)
             operation_line operation_line_pure
             operations_shown [op101; op202] eq_refl).
    + simpl. lia.
    + repeat constructor; simpl; lia.
  - apply (printLines_needs_a_column_per_cell (P := operation) (Σ := ())
             (printable := operation_printable)
             operation_line operation_line_pure
             (ListPrinter.State
                (ListPrinter.Make ["Server"; "OpId"] [8; 6]%nat None true
                                  (Some [op7; op101])) () "")
             [op7; op101] eq_refl).
    + simpl. lia.
    + apply Exists_cons_tl, Exists_cons_hd. simpl. lia.
Defined.



(** ** More on ListPrinter.getLine *)

Section getLine_search.
Context {P Σ K : Type} {printable : Printable P Σ K}.
Context (cells : P → list string).
Context (line_pure : ∀ row σ, line row σ = (σ, Ok (cells row))).

(** X13.  What [getLine] does for any supplied cells: the search stops
    at the first row whose cells and the supplied ones agree as far as
    both go; it returns that row when the row shows at least as many cells
    as were supplied, raises [IndexError] when it shows fewer, and returns
    [None] when there is no such row.  Supplying no cell at all returns
    the first row. *)
Theorem getLine_outcome (st : ListPrinter.state P Σ) (rows : list P)
    (supplied : list string)
    (Hrows : ListPrinter.printables (ListPrinter.table st) = Some rows) :
  ListPrinter.getLine supplied st
  = (st,
     match list_find (λ row, supplied `prefix_of` cells row
                             ∨ cells row `prefix_of` supplied) rows with
     | None => Ok None
     | Some (_, row) =>
         if decide (supplied `prefix_of` cells row) then Ok (Some row)
         else Raise IndexError
     end)
  ∧ ListPrinter.getLine [] st = (st, Ok (head rows)).
Proof.
  assert (∀ supplied',
            ListPrinter.scan rows supplied' st
            = (st,
               match list_find (λ row, supplied' `prefix_of` cells row
                                       ∨ cells row `prefix_of` supplied')
                               rows with
               | None => Ok None
               | Some (_, row) =>
                   if decide (supplied' `prefix_of` cells row)
                   then Ok (Some row) else Raise IndexError
               end)) as Hscan.
  { intros supplied'. clear Hrows.
    induction rows as [|row rows IH]; [done|].
    cbn [ListPrinter.scan list_find]. unfold mbind, action_bind.
    rewrite (call_line_pure cells line_pure).
    unfold lift_result. rewrite compare_from_spec, drop_0.
    case_bool_decide as Hmatch.
    - rewrite decide_True by (by left). simpl. by rewrite decide_True.
    - case_bool_decide as Hshort.
      + rewrite decide_True by (by right). simpl. by rewrite decide_False.
      + rewrite decide_False by tauto. rewrite IH.
        by destruct (list_find _ rows) as [[i row']|]. }
  split.
  - unfold ListPrinter.getLine, mbind, action_bind,
      ListPrinter.get_printables. rewrite Hrows. apply Hscan.
  - unfold ListPrinter.getLine, mbind, action_bind,
      ListPrinter.get_printables. rewrite Hrows.
    destruct rows as [|row rows']; [done|].
    cbn [ListPrinter.scan]. unfold mbind, action_bind.
    by rewrite (call_line_pure cells line_pure).
Qed.
End getLine_search.

Lemma getLine_outcome_witness :
  ListPrinter.getLine [] operations_shown
  = (operations_shown, Ok (head [op101; op202])).
Proof.
  apply (getLine_outcome (P := operation) (Σ := ())
             (printable := operation_printable)
           operation_line operation_line_pure
           operations_shown [op101; op202] [] eq_refl).
Defined.

(** ** The operations table *)

Lemma prefix_length (n : nat) (s : string) :
  String.length (Py.prefix n s) = (n `min` String.length s)%nat.
Proof.
  revert s. induction n as [|n IH]; intros [|c s]; simpl; try done.
  by rewrite IH.
Qed.

Lemma operation_line_head (o : operation) :
  take 2 (operation_line o)
  = [Server.name (operation_server o); Py.str (operation_opid o)].
Proof. by destruct o. Qed.

Lemma operation_line_length (o : operation) :
  (2 ≤ length (operation_line o) ≤ 5)%nat.
Proof. destruct o; simpl; lia. Qed.

(** X14.  In the operations table (descending) every query whose
    duration is absent or not negative stands before every generic
    operation with a positive id, and generic operations with positive
    ids stand by increasing id: their key is the negated id. *)
Theorem operations_table_order {Σ : Type} (self : ListPrinter.t operation)
    (submitted kept : list operation) (i j : nat)
    (Hdesc : ListPrinter.descendingOrder self = true)
    (Hkept : ListPrinter.printables
               (ListPrinter.reset_table (Σ := Σ) self submitted)
             = Some kept) :
  (∀ q o, kept !! i = Some (Queried q) → kept !! j = Some (Generic o) →
     (Query.duration q = None ∨ ∃ d, Query.duration q = Some d ∧ 0 ≤ d) →
     0 < Operation.opid o → (i < j)%nat)
  ∧ (∀ o o', kept !! i = Some (Generic o) → kept !! j = Some (Generic o') →
       Operation.opid o < Operation.opid o' → (i < j)%nat).
Proof.
  destruct (reset_table_kept (Σ := Σ) self submitted) as [n Hn].
  rewrite Hn in Hkept. injection Hkept as <-. rewrite Hdesc.
  pose proof (sorted_sorted Z.ltb operation_sortOrder submitted true) as Hs.
  set (ranked := Py.sorted Z.ltb operation_sortOrder submitted true) in *.
  change (Py.sorted key_lt sortOrder submitted true) with ranked.
  assert (∀ x y, take n ranked !! i = Some x → take n ranked !! j = Some y →
            operation_sortOrder y < operation_sortOrder x → (i < j)%nat)
    as Horder.
  { intros x y Hx Hy Hlt.
    apply lookup_take_Some in Hx as [Hx _], Hy as [Hy _].
    destruct (Nat.lt_trichotomy i j) as [?|[->|Hgt]]; [done| |].
    - rewrite Hx in Hy. injection Hy as ->. lia.
    - pose proof (StronglySorted_lookup _ _ _ _ _ _ Hs Hy Hx Hgt) as Hr.
      unfold descending in Hr. apply Z.ltb_ge in Hr. lia. }
  split.
  - intros q o Hq Ho Hd Hid. apply (Horder _ _ Hq Ho). simpl.
    unfold Operation.sortOrder, Query.sortOrder.
    destruct Hd as [-> | (d & -> & Hd)]; simpl; [lia|].
    destruct (Z.eqb_spec d 0); simpl; lia.
  - intros o o' Ho Ho' Hlt. apply (Horder _ _ Ho Ho'). simpl.
    unfold Operation.sortOrder. lia.
Qed.

Lemma operations_table_order_witness :
  (0 < 1)%nat.
Proof.
  apply (proj1 (operations_table_order (Σ := ()) Query_listPrinter
                  [op7; op101] [op101; op7] 0 1 eq_refl eq_refl)
           (Query.init srv1 101 "shop.orders" "{}" (Some 12))
           (Operation.Make srv1 7) eq_refl eq_refl).
  - right. exists 12. split; [reflexivity|lia].
  - simpl. lia.
Defined.

(** X15.  The operations table can always be printed: a generic
    operation renders 2 cells and a query 5, never more than the table's
    5 columns, so [printLines] on it returns normally for every
    generation; and the last cell of a query is the beginning of its
    document's text, at most 80 characters long. *)
Theorem operations_table_prints {Σ : Type}
    (st : ListPrinter.state operation Σ) (rows : list operation)
    (Hcolumns : length (ListPrinter.columnWidths (ListPrinter.table st))
                = 5%nat)
    (Hheaders : length (ListPrinter.columnHeaders (ListPrinter.table st))
                = 5%nat)
    (Hrows : ListPrinter.printables (ListPrinter.table st) = Some rows) :
  (ListPrinter.printLines st).2 = Ok ()
  ∧ (∀ o, length (operation_line (Generic o)) = 2%nat)
  ∧ (∀ q, length (operation_line (Queried q)) = 5%nat
          ∧ operation_line (Queried q) !! 4%nat
            = Some (Py.prefix 80 (Query.body q))
          ∧ (String.length (Py.prefix 80 (Query.body q)) ≤ 80)%nat).
Proof.
  split; [|split].
  - rewrite (printLines_result operation_line operation_line_pure st rows);
      [done|done|lia|].
    apply Forall_forall. intros row _.
    pose proof (operation_line_length row). lia.
  - done.
  - intros q. split; [done|]. split; [done|]. rewrite prefix_length. lia.
Qed.

Lemma operations_table_prints_witness :
  (ListPrinter.printLines generic_shown).2 = Ok ().
Proof.
  apply (operations_table_prints generic_shown [op7]); reflexivity.
Defined.

(** ** More on the listing *)

Lemma classify_carries (self : Server.t) (entry : inprog) :
  operation_server (classify self entry) = self
  ∧ operation_opid (classify self entry) = opid entry.
Proof.
  unfold classify. destruct (String.eqb _ _); [|done].
  by destruct (secs_running entry).
Qed.

(** X16.  The listing reports, server after server in the configured
    order, one operation for each entry the server answered, in the order
    of the answer, and each operation carries the server that answered
    and the entry's id. *)
Theorem all_operations_in_order (deployment : remote)
    (servers : list Server.t) (replies : list (list inprog))
    (Hreplies : Forall2 (λ server entries,
                           current_op deployment (Server.address server)
                           = Ok entries) servers replies) :
  ∃ operations,
    all_operations deployment servers = Ok operations
    ∧ (λ o, (operation_server o, operation_opid o)) <$> operations
      = mjoin (zip_with (λ server entries,
                           (λ entry, (server, opid entry)) <$> entries)
                        servers replies).
Proof.
  induction Hreplies as [|server entries servers replies Hs _ IH].
  - by exists [].
  - destruct IH as (operations & Hall & Hpairs).
    exists ((classify server <$> entries) ++ operations). split.
    + cbn [all_operations]. unfold currentOperations. by rewrite Hs, Hall.
    + cbn [zip_with mjoin list_join]. rewrite fmap_app, Hpairs. f_equal.
      rewrite <- list_fmap_compose. apply list_fmap_ext.
      intros _ entry _. simpl.
      by destruct (classify_carries server entry) as [-> ->].
Qed.

Lemma all_operations_in_order_witness :
  ∃ operations,
    all_operations db1_down [srv2] = Ok operations
    ∧ (λ o, (operation_server o, operation_opid o)) <$> operations
      = [(srv2, 202)].
Proof.
  apply (all_operations_in_order db1_down [srv2]
           [[InProg "query" 202 "shop.users" "{}" None]]).
  repeat constructor.
Defined.

(** X17.  An operation on display is found again by what is asked of
    the operator: the search for its server name and its id as text
    returns a row with that server name and that id, the first one in
    the table. *)
Theorem getLine_finds_shown {Σ : Type} (st : ListPrinter.state operation Σ)
    (rows : list operation) (o : operation)
    (Hrows : ListPrinter.printables (ListPrinter.table st) = Some rows)
    (Hshown : o ∈ rows) :
  ∃ found before after,
    ListPrinter.getLine
      [Server.name (operation_server o); Py.str (operation_opid o)] st
    = (st, Ok (Some found))
    ∧ rows = before ++ found :: after
    ∧ Server.name (operation_server found) = Server.name (operation_server o)
    ∧ operation_opid found = operation_opid o
    ∧ Forall (λ other,
                ¬ (Server.name (operation_server other)
                   = Server.name (operation_server o)
                   ∧ operation_opid other = operation_opid o)) before.
Proof.
  set (supplied := [Server.name (operation_server o);
                    Py.str (operation_opid o)]).
  assert (∀ row, supplied `prefix_of` operation_line row
                 ↔ Server.name (operation_server row)
                   = Server.name (operation_server o)
                   ∧ operation_opid row = operation_opid o) as Hmatch.
  { intros row. split.
    - intros [rest Hrest].
      assert (take 2 (operation_line row) = supplied) as Htake.
      { rewrite Hrest. done. }
      rewrite operation_line_head in Htake. injection Htake as Hn Hid.
      split; [done|]. by apply (inj pretty) in Hid.
    - intros [Hn Hid]. exists (drop 2 (operation_line row)).
      rewrite <- (take_drop 2 (operation_line row)) at 1.
      by rewrite operation_line_head, Hn, Hid. }
  destruct (scan_first_match operation_line operation_line_pure rows
              supplied st) as (found & Hscan & Hfound).
  { apply Forall_forall. intros row _.
    pose proof (operation_line_length row). simpl. lia. }
  destruct found as [found|].
  - destruct Hfound as (before & after & -> & Hpre & Hnone).
    exists found, before, after. split.
    { unfold ListPrinter.getLine, mbind, action_bind,
        ListPrinter.get_printables. by rewrite Hrows. }
    split; [done|]. apply Hmatch in Hpre as [Hn Hid].
    split; [done|]. split; [done|].
    eapply Forall_impl; [exact Hnone|]. intros other Hother.
    simpl in Hother. by rewrite <- Hmatch.
  - exfalso. rewrite Forall_forall in Hfound.
    apply (Hfound o Hshown), Hmatch. done.
Qed.

Lemma getLine_finds_shown_witness :
  ∃ found before after,
    ListPrinter.getLine
      [Server.name (operation_server op202); Py.str (operation_opid op202)]
      operations_shown
    = (operations_shown, Ok (Some found))
    ∧ [op101; op202] = before ++ found :: after
    ∧ Server.name (operation_server found)
      = Server.name (operation_server op202)
    ∧ operation_opid found = operation_opid op202
    ∧ Forall (λ other,
                ¬ (Server.name (operation_server other)
                   = Server.name (operation_server op202)
                   ∧ operation_opid other = operation_opid op202)) before.
Proof.
  apply (getLine_finds_shown operations_shown [op101; op202] op202 eq_refl).
  apply list_elem_of_In. simpl. tauto.
Defined.

(** ** More on Server *)

Ltac run_line :=
  unfold Server.line_of, mbind, action_bind, Server.show, lift_result,
    Server.getOperationCountChange, Server.getFlushCountChange;
  cbn [Server.name Server.address Server.operationCount Server.flushCount].

(** X18.  [Server.line] asks the server first: when that call fails,
    the exception is passed on and the counters stay as they were.
    Otherwise the name and the address are never changed, and a row that
    is returned has the 7 cells of the servers table, the name first,
    with the operation counter set to the sum of the reply and the flush
    counter to the reply's. *)
Theorem Server_line_row (py : python) (deployment : remote)
    (self : Server.t) :
  match command_serverStatus deployment (Server.address self) with
  | Raise e => Server.line py deployment self = (self, Raise e)
  | Ok status =>
      ∃ self' r,
        Server.line py deployment self = (self', r)
        ∧ Server.name self' = Server.name self
        ∧ Server.address self' = Server.address self
        ∧ ∀ cells, r = Ok cells →
            length cells = length (ListPrinter.columnHeaders
                                     Server_listPrinter)
            ∧ cells !! 0%nat = Some (Server.name self)
            ∧ Server.operationCount self' = Server.total (opcounters status)
            ∧ Server.flushCount self' = backgroundFlushing_flushes status
  end.
Proof.
  unfold Server.line.
  destruct (command_serverStatus deployment (Server.address self))
    as [status|e]; [|done].
  run_line.
  repeat match goal with
         | |- context [Value.str ?p ?n] =>
             destruct (Value.str p n) eqn:?; cbn beta iota
         end;
    eexists _, _; (split; [reflexivity|]); simpl;
    (split; [done|]); (split; [done|]);
    intros ? Hr; try discriminate Hr; injection Hr as <-; done.
Qed.

Lemma Server_line_row_witness :
  ∃ self' cells,
    Server.line Python3 db1_down srv2 = (self', Ok cells)
    ∧ length cells = 7%nat
    ∧ cells !! 0%nat = Some "srv2"
    ∧ Server.operationCount self' = 47
    ∧ Server.flushCount self' = 3.
Proof.
  pose proof (Server_line_row Python3 db1_down srv2) as Hline.
  cbv beta iota delta [db1_down command_serverStatus] in Hline.
  destruct Hline as (self' & r & Hrun & _ & _ & Hrow).
  exists self', ["srv2"; "47"; "1"; "0"; "3"; "5 / 100"; "100 / 200"].
  assert (r = Ok ["srv2"; "47"; "1"; "0"; "3"; "5 / 100"; "100 / 200"])
    as Hr.
  { vm_compute in Hrun. by injection Hrun as _ <-. }
  split; [by rewrite <- Hr|].
  destruct (Hrow _ Hr) as (Hlen & Hname & Hops & Hflush).
  split; [exact Hlen|]. split; [exact Hname|].
  split; [by rewrite Hops|by rewrite Hflush].
Defined.

(** X19.  Sampling twice with the same reply: when [Server.line] has
    returned a row for a reply, it returns, for the same reply again, the
    same row with "0" as the QPS and the flushes, and leaves the
    counters where they are: the rates are those since the last call. *)
Theorem Server_line_steady (py : python) (status : serverStatus)
    (self self1 : Server.t) (cells : list string)
    (Hfirst : Server.line_of py status self = (self1, Ok cells)) :
  Server.line_of py status self1
  = (self1, Ok (<[4%nat := "0"]> (<[1%nat := "0"]> cells))).
Proof.
  unfold Server.line_of, mbind, action_bind, Server.show, lift_result,
    Server.getOperationCountChange, Server.getFlushCountChange in Hfirst.
  cbn [Server.name Server.address Server.operationCount Server.flushCount]
    in Hfirst.
  repeat match type of Hfirst with
         | context [Value.str ?p ?n] =>
             destruct (Value.str p n) eqn:?; cbn beta iota in Hfirst
         end; try discriminate Hfirst.
  injection Hfirst as <- <-. run_line.
  rewrite !Z.sub_diag, !(Value_str_plain py 0) by lia.
  repeat match goal with
         | H : Value.str _ _ = _ |- _ => rewrite H; clear H
         end.
  reflexivity.
Qed.

Lemma Server_line_steady_witness :
  let status := ServerStatus 5 95 100 200 {[ "query" := 47 ]} 1 0 3 in
  Server.line_of Python3 status (Server.line_of Python3 status srv1).1
  = ((Server.line_of Python3 status srv1).1,
     Ok ["srv1"; "0"; "1"; "0"; "0"; "5 / 100"; "100 / 200"]).
Proof.
  intros status.
  apply (Server_line_steady Python3 status srv1
           (Server.line_of Python3 status srv1).1
           ["srv1"; "47"; "1"; "0"; "3"; "5 / 100"; "100 / 200"]).
  vm_compute. reflexivity.
Defined.

(** ** More on the snapshot counters *)

Lemma changes_sum (previous : Z) (values : list Z) :
  previous + sum_changes (changes previous values)
  = default previous (last values).
Proof.
  revert previous. induction values as [|value values IH]; intros previous.
  - simpl. lia.
  - rewrite changes_cons. cbn [sum_changes foldr].
    fold (sum_changes (changes value values)).
    rewrite last_cons. specialize (IH value).
    destruct (last values); simpl in *; lia.
Qed.

(** X20.  Nothing is lost between samples: over any sequence of calls,
    whatever the values, the changes reported add up to the difference
    between the counter as it ends and as it started. *)
Theorem changes_add_up (self : Server.t) (values : list Z)
    (counts : list (gmap string Z)) :
  (∃ self' deltas,
     samples Server.getFlushCountChange values self = (self', Ok deltas)
     ∧ Server.flushCount self + sum_changes deltas
       = Server.flushCount self')
  ∧ (∃ self' deltas,
       samples Server.getOperationCountChange counts self
       = (self', Ok deltas)
       ∧ Server.operationCount self + sum_changes deltas
         = Server.operationCount self').
Proof.
  split.
  - eexists _, _. split; [apply samples_flushCount|]. simpl.
    apply changes_sum.
  - eexists _, _. split; [apply samples_operationCount|]. simpl.
    apply changes_sum.
Qed.

(** X21.  A counter that went down (the monitored server was restarted)
    is not handled: the change is negative, and the cell shows it in
    full with its minus sign, whatever its size, since only values above
    [10^3] are scaled (under Python 2 as long as the change fits the 32
    bits that an [int] of its own class is sure to have). *)
Theorem counter_going_down (py : python) (self : Server.t) (value : Z)
    (Hdown : value < Server.flushCount self)
    (Hlong : py = Python2 → - 2 ^ 31 ≤ value - Server.flushCount self) :
  ∃ self' delta digits,
    Server.getFlushCountChange value self = (self', Ok delta)
    ∧ delta = value - Server.flushCount self
    ∧ delta < 0
    ∧ Value.str py delta = Ok (Py.str delta)
    ∧ Py.str delta = String "-"%char digits.
Proof.
  assert (∃ digits,
            Py.str (value - Server.flushCount self) = String "-"%char digits)
    as [digits Hdigits].
  { unfold Py.str, pretty, pretty_Z.
    destruct (value - Server.flushCount self) as [|p|p] eqn:Hd; [lia..|].
    by eexists. }
  exists (Server.Make (Server.name self) (Server.address self)
            (Server.operationCount self) value),
    (value - Server.flushCount self), digits.
  split; [reflexivity|]. split; [done|]. split; [lia|].
  split; [apply Value_str_plain; lia|done].
Qed.

Lemma counter_going_down_witness :
  ∃ self' delta digits,
    Server.getFlushCountChange 3 (Server.Make "srv1" "db1" 0 5000003)
    = (self', Ok delta)
    ∧ delta = 3 - 5000003
    ∧ delta < 0
    ∧ Value.str Python2 delta = Ok (Py.str delta)
    ∧ Py.str delta = String "-"%char digits.
Proof.
  apply (counter_going_down Python2 (Server.Make "srv1" "db1" 0 5000003) 3).
  - simpl. lia.
  - intros _. simpl. lia.
Defined.

(** ** Console.refresh *)

(** X22.  [refresh] draws from scratch and only draws: what it returns
    and leaves behind does not depend on what the terminal showed, the
    generations of both tables are kept, and when the servers table
    cannot be printed the exception ends the refresh with the operations
    table untouched and not shown. *)
Theorem refresh_redraws (py : python) (c : console) (text : string) :
  refresh py (with_screen c text) = refresh py c
  ∧ ListPrinter.printables (serverPrinter (refresh py c).1)
    = ListPrinter.printables (serverPrinter c)
  ∧ ListPrinter.printables (queryPrinter (refresh py c).1)
    = ListPrinter.printables (queryPrinter c)
  ∧ ∀ st e,
      ListPrinter.printLines (printable := server_printable py)
        (ListPrinter.State (serverPrinter c) (monitored c) "")
      = (st, Raise e) →
      refresh py c
      = (Console (ListPrinter.table st) (queryPrinter c)
                 (ListPrinter.heap st) (ListPrinter.stdout st), Raise e).
Proof.
  split; [done|].
  unfold refresh, mbind, action_bind, clear, on_servers, on_queries,
    print_blank.
  cbn [serverPrinter queryPrinter monitored screen].
  pose proof (printLines_generation (printable := server_printable py)
                (ListPrinter.State (serverPrinter c) (monitored c) ""))
    as Hservers.
  destruct (ListPrinter.printLines _) as [st [[]|e]].
  - cbn [serverPrinter queryPrinter monitored screen].
    pose proof (printLines_generation (printable := operation_printable)
                  (ListPrinter.State (queryPrinter c) (ListPrinter.heap st)
                     (ListPrinter.stdout st +:+ ListPrinter.newline)))
      as Hqueries.
    destruct (ListPrinter.printLines _) as [st' [[]|e]];
      (split; [exact Hservers|split; [exact Hqueries|]]);
      intros ? ? [=].
  - split; [exact Hservers|]. split; [done|].
    by intros ? ? [= <- <-].
Qed.

Lemma refresh_redraws_witness :
  refresh Python3 console0
  = (Console
       (ListPrinter.table
          (ListPrinter.printLines (printable := server_printable Python3)
             (ListPrinter.State Server_listPrinter (monitored console0) "")).1)
       Query_listPrinter (monitored console0)
       ("Server  QPS  Clients  Queue  Flushes  Connections  Memory  "
          +:+ ListPrinter.newline),
     Raise AttributeError).
Proof.
  destruct (refresh_redraws Python3 console0 "") as (_ & _ & _ & Hraise).
  apply (Hraise
           (ListPrinter.printLines (printable := server_printable Python3)
              (ListPrinter.State Server_listPrinter (monitored console0) "")).1
           AttributeError).
  reflexivity.
Defined.
